(** * AstraMesh QVic Reforge Chalice: the aggregation service

    A shallow embedding of [backend/main.py]: the request and result
    schemas, the two source fetchers, the summarizer, the aggregation
    orchestrator and the HTTP handlers, followed by the properties the
    specification states about them.

    Conventions.
    - A Python computation that may raise is a value of [res A].
    - External collaborators (the HTTP client, the Twitter client, the
      language model, the wall clock) are inputs of the functions that call
      them: what they answer is quantified over in the theorems.
    - JSON numbers are integers; floating point payload values are outside
      the model. *)

From Stdlib Require Import ZArith List String Ascii Bool Lia.
From Stdlib Require Import Sorting.Sorted Sorting.Permutation.
From Stdlib Require Import DecimalString.
Import ListNotations.

Set Warnings "-register-all".

Local Open Scope Z_scope.
Local Open Scope string_scope.

(* ------------------------------------------------------------------ *)
(** ** Python values and exceptions *)

Module Py.

(** The exception classes that the modelled code can meet. All of them
    derive from [Exception], so every [except Exception] catches them. *)
Inductive exn : Type :=
| TypeError (msg : string)
| AttributeError (msg : string)
| KeyError (msg : string)
| ValidationError (msg : string)
| JSONDecodeError (msg : string)
| NetworkError (msg : string)
| ProviderError (msg : string).

(** [str(e)] *)
Definition exn_str (e : exn) : string :=
  match e with
  | TypeError m | AttributeError m | KeyError m | ValidationError m
  | JSONDecodeError m | NetworkError m | ProviderError m => m
  end.

Inductive res (A : Type) : Type :=
| Ok (a : A)
| Raise (e : exn).
Arguments Ok {A} a.
Arguments Raise {A} e.

Definition bind {A B} (m : res A) (k : A -> res B) : res B :=
  match m with
  | Ok a => k a
  | Raise e => Raise e
  end.

(** What [json()] of a response can hold. A [JDict] lists the entries of
    the parsed object, keys distinct as in a Python dict. *)
Inductive json : Type :=
| JNull
| JBool (b : bool)
| JNum (n : Z)
| JStr (s : string)
| JList (l : list json)
| JDict (d : list (string * json)).

(** [bool(v)] *)
Definition truthy (v : json) : bool :=
  match v with
  | JNull => false
  | JBool b => b
  | JNum n => negb (Z.eqb n 0)
  | JStr s => negb (String.eqb s "")
  | JList l => match l with [] => false | _ => true end
  | JDict d => match d with [] => false | _ => true end
  end.

Fixpoint assoc {V} (k : string) (d : list (string * V)) : option V :=
  match d with
  | [] => None
  | (k', v) :: d' => if String.eqb k k' then Some v else assoc k d'
  end.

(** [l[:n]]: the first [n] elements, and for a negative [n] all but the
    last [-n]. *)
Definition slice_to {A} (n : Z) (l : list A) : list A :=
  if Z.leb 0 n then firstn (Z.to_nat n) l
  else firstn (List.length l - Z.to_nat (- n))%nat l.

(** [s.split(sep)[-1]] for a one-character separator. The accumulator
    holds the piece after the last separator seen. *)
Fixpoint split_last_from (sep : ascii) (s acc : string) : string :=
  match s with
  | EmptyString => acc
  | String c s' =>
      if Ascii.eqb c sep then split_last_from sep s' EmptyString
      else split_last_from sep s' (acc ++ String c EmptyString)
  end.
Definition split_last (sep : ascii) (s : string) : string :=
  split_last_from sep s EmptyString.

(** [s.replace(a, b)] for one-character [a] and [b]. *)
Fixpoint replace_char (a b : ascii) (s : string) : string :=
  match s with
  | EmptyString => EmptyString
  | String c s' =>
      String (if Ascii.eqb c a then b else c) (replace_char a b s')
  end.

Definition is_lower (c : ascii) : bool :=
  let n := nat_of_ascii c in (97 <=? n)%nat && (n <=? 122)%nat.
Definition is_upper (c : ascii) : bool :=
  let n := nat_of_ascii c in (65 <=? n)%nat && (n <=? 90)%nat.
Definition to_upper (c : ascii) : ascii :=
  if is_lower c then ascii_of_nat (nat_of_ascii c - 32) else c.
Definition to_lower (c : ascii) : ascii :=
  if is_upper c then ascii_of_nat (nat_of_ascii c + 32) else c.

(** [s.title()] on ASCII text: a letter that follows a letter is
    lowercased, any other letter is uppercased. Text is kept as bytes
    and only the ASCII letters are cased here, so on text with other
    letters the title differs from the one of Python; a statement about
    the characters of a title is made for ASCII text only. *)
Fixpoint title_from (prev_cased : bool) (s : string) : string :=
  match s with
  | EmptyString => EmptyString
  | String c s' =>
      let cased := is_lower c || is_upper c in
      String (if prev_cased then to_lower c else to_upper c)
             (title_from cased s')
  end.
Definition str_title (s : string) : string := title_from false s.

(** [str(n)] of an integer. *)
Definition str_of_Z (n : Z) : string :=
  NilZero.string_of_int (Z.to_int n).

(** [sep.join(parts)] *)
Fixpoint join (sep : string) (parts : list string) : string :=
  match parts with
  | [] => ""
  | [p] => p
  | p :: ps => p ++ sep ++ join sep ps
  end.

End Py.
Import Py.

Notation "x <- m ;; k" := (Py.bind m (fun x => k))
  (at level 61, m at next level, right associativity).

(* ------------------------------------------------------------------ *)
(** ** datetime *)

(** A [datetime] is either naive (no time zone: what [datetime.now()]
    returns) or aware (it carries a UTC offset: what the Twitter client
    parses out of [created_at]). The integer is the number of microseconds,
    of the wall clock for a naive value and of the UTC instant for an aware
    one. *)
Inductive datetime : Type :=
| Naive (t : Z)
| Aware (t : Z).

Definition instant (d : datetime) : Z :=
  match d with Naive t | Aware t => t end.

Definition is_aware (d : datetime) : bool :=
  match d with Naive _ => false | Aware _ => true end.

(** [a < b]. Python refuses to order a naive and an aware datetime. *)
Definition dt_lt (a b : datetime) : res bool :=
  match a, b with
  | Naive x, Naive y => Ok (Z.ltb x y)
  | Aware x, Aware y => Ok (Z.ltb x y)
  | _, _ => Raise (TypeError "can't compare offset-naive and offset-aware datetimes")
  end.

(* ------------------------------------------------------------------ *)
(** ** Data model *)

Record ContentItem : Type := mkContentItem {
  title : string;
  content : string;
  source : string;
  url : option string;
  timestamp : datetime;
  metadata : list (string * json)
}.

Record AggregationRequest : Type := mkAggregationRequest {
  query : string;
  sources : list string;
  max_results : Z;
  summarize : bool
}.

Record AggregationResult : Type := mkAggregationResult {
  res_query : string;
  items : list ContentItem;
  summary : option string;
  total_items : Z;
  sources_used : list string;
  processing_time : Z
}.

(* ------------------------------------------------------------------ *)
(** ** list.sort(key=lambda x: x.timestamp, reverse=True) *)

Module Sort.

(** The place of [pivot] in an ascending run: after every element that
    is not greater than it, so that equal keys keep their order. The
    test is [pivot < y]; [list.sort] compares keys with [<] only. *)
Fixpoint insert (pivot : ContentItem) (run : list ContentItem)
  : res (list ContentItem) :=
  match run with
  | [] => Ok [pivot]
  | y :: run' =>
      lt <- dt_lt (timestamp pivot) (timestamp y) ;;
      if lt then Ok (pivot :: y :: run')
      else (r <- insert pivot run' ;; Ok (y :: r))
  end.

(** Stable ascending sort of [l], elements taken from the left. *)
Fixpoint sort_onto (run l : list ContentItem) : res (list ContentItem) :=
  match l with
  | [] => Ok run
  | x :: l' => run' <- insert x run ;; sort_onto run' l'
  end.

Definition sort_asc (l : list ContentItem) : res (list ContentItem) :=
  sort_onto [] l.

(** With [reverse=True] the list is reversed, sorted ascending and
    reversed again, which keeps the sort stable. A stable sort has one
    result, and it raises exactly on a list that holds a naive and an
    aware timestamp ([sort_desc_total], [sort_desc_comparable] below), so
    the order in which the comparisons are made does not show. *)
Definition sort_desc (l : list ContentItem) : res (list ContentItem) :=
  r <- sort_asc (rev l) ;; Ok (rev r).

End Sort.

(* ------------------------------------------------------------------ *)
(** ** Field validation of the schemas *)

(** The schemas declare field types and defaults and no further
    constraint. A field accepts the JSON value of its annotated type. The
    coercions that the validation library may add between text, numbers
    and booleans (the text of a number or a boolean given for
    [max_results], say) are not modelled: the validators here accept
    fewer bodies than the service. No theorem below relies on the
    rejection of a number or a boolean where text is expected, or of
    text or a boolean where a number is, or of text or a number where a
    boolean is. *)
Module Schema.

Definition as_str (field : string) (v : json) : res string :=
  match v with
  | JStr s => Ok s
  | _ => Raise (ValidationError (field ++ ": input should be a valid string"))
  end.

Definition as_opt_str (field : string) (v : option json) : res (option string) :=
  match v with
  | None | Some JNull => Ok None
  | Some (JStr s) => Ok (Some s)
  | Some _ => Raise (ValidationError (field ++ ": input should be a valid string"))
  end.

Definition as_int (field : string) (v : json) : res Z :=
  match v with
  | JNum n => Ok n
  | _ => Raise (ValidationError (field ++ ": input should be a valid integer"))
  end.

Definition as_bool (field : string) (v : json) : res bool :=
  match v with
  | JBool b => Ok b
  | _ => Raise (ValidationError (field ++ ": input should be a valid boolean"))
  end.

Fixpoint as_str_list (field : string) (l : list json) : res (list string) :=
  match l with
  | [] => Ok []
  | v :: l' =>
      s <- as_str field v ;;
      r <- as_str_list field l' ;;
      Ok (s :: r)
  end.

Definition as_list_str (field : string) (v : json) : res (list string) :=
  match v with
  | JList l => as_str_list field l
  | _ => Raise (ValidationError (field ++ ": input should be a valid list"))
  end.

(** A field with a default: the default when the key is absent. *)
Definition with_default {A} (dflt : A) (check : json -> res A)
  (v : option json) : res A :=
  match v with
  | None => Ok dflt
  | Some x => check x
  end.

(** A required field, [Field(...)]. *)
Definition required {A} (field : string) (check : json -> res A)
  (v : option json) : res A :=
  match v with
  | None => Raise (ValidationError (field ++ ": field required"))
  | Some x => check x
  end.

(** [AggregationRequest] out of a request body. *)
Definition validate_request (body : json) : res AggregationRequest :=
  match body with
  | JDict d =>
      q <- required "query" (as_str "query") (assoc "query" d) ;;
      s <- with_default ["web"; "twitter"] (as_list_str "sources")
             (assoc "sources" d) ;;
      m <- with_default 10 (as_int "max_results") (assoc "max_results" d) ;;
      z <- with_default true (as_bool "summarize") (assoc "summarize" d) ;;
      Ok (mkAggregationRequest q s m z)
  | _ => Raise (ValidationError "body: input should be a valid dictionary")
  end.

End Schema.

(* ------------------------------------------------------------------ *)
(** ** External collaborators *)

(** The answer to [client.get(search_url, timeout=10.0)]. *)
Record Response : Type := mkResponse {
  status_code : Z;
  json_body : res json
}.

(** [httpx.AsyncClient().get]: the URL to a response, or a raise. *)
Definition HttpGet : Type := string -> res Response.

(** A tweet as the Twitter client hands it out. *)
Record Tweet : Type := mkTweet {
  tweet_id : Z;
  tweet_text : string;
  author_id : option Z;
  created_at : option datetime;
  public_metrics : option (list (string * json))
}.

(** [tweets.data] of [search_recent_tweets(query=, max_results=, ...)]. *)
Record TwitterClient : Type := mkTwitterClient {
  search_recent_tweets : string -> Z -> res (option (list Tweet))
}.

(** [response.content] of [ainvoke([HumanMessage(content=prompt)])]. *)
Record LLMClient : Type := mkLLMClient {
  ainvoke : string -> res string
}.

(** The readings of [datetime.now()]: the k-th call of one fetch. *)
Definition Clock : Type := nat -> Z.

(* ------------------------------------------------------------------ *)
(** ** Source fetchers *)

Definition has_key {V} (k : string) (d : list (string * V)) : bool :=
  match assoc k d with Some _ => true | None => false end.

(** [data.get(key, default)] *)
Definition py_get (data : json) (key : string) (default : json) : res json :=
  match data with
  | JDict d => Ok (match assoc key d with Some v => v | None => default end)
  | _ => Raise (AttributeError "object has no attribute 'get'")
  end.

(** [data[key]] *)
Definition py_index (data : list (string * json)) (key : string) : res json :=
  match assoc key data with
  | Some v => Ok v
  | None => Raise (KeyError key)
  end.

(** The elements that [for topic in v[:n]] runs over. *)
Definition py_slice_iter (n : Z) (v : json) : res (list json) :=
  match v with
  | JList l => Ok (slice_to n l)
  | JStr s =>
      Ok (slice_to n (map (fun c => JStr (String c EmptyString))
                          (list_ascii_of_string s)))
  | _ => Raise (TypeError "object is not subscriptable")
  end.

(** [x.split(...)] exists on text only. *)
Definition py_str_method (v : json) : res string :=
  match v with
  | JStr s => Ok s
  | _ => Raise (AttributeError "object has no attribute 'split'")
  end.

(** The item of one related topic (lines 146-153). *)
Definition web_topic_item (topic : list (string * json)) (now : Z)
  : res ContentItem :=
  first_url <- py_get (JDict topic) "FirstURL" (JStr "") ;;
  u <- py_str_method first_url ;;
  let t := str_title (replace_char "-"%char " "%char (split_last "/"%char u)) in
  text <- py_index topic "Text" ;;
  c <- Schema.as_str "content" text ;;
  l <- Schema.as_opt_str "url" (assoc "FirstURL" topic) ;;
  Ok (mkContentItem t c "web" l (Naive now)
        [("search_engine", JStr "duckduckgo")]).

(** The loop over the related topics (lines 144-153). [items] is the list
    the loop appends to; an exception leaves what was appended so far. *)
Fixpoint web_topics (now : Clock) (topics : list json)
  (items : list ContentItem) : list ContentItem * option exn :=
  match topics with
  | [] => (items, None)
  | JDict d :: rest =>
      if has_key "Text" d then
        match web_topic_item d (now (List.length items)) with
        | Ok it => web_topics now rest (items ++ [it])%list
        | Raise e => (items, Some e)
        end
      else web_topics now rest items
  | _ :: rest => web_topics now rest items
  end.

(** The item of the abstract (lines 157-164). *)
Definition web_abstract_item (data : json) (q : string) (now : Z)
  : res ContentItem :=
  heading <- py_get data "Heading" (JStr (str_title q)) ;;
  abstract <- py_get data "Abstract" JNull ;;
  abstract_url <- py_get data "AbstractURL" JNull ;;
  t <- Schema.as_str "title" heading ;;
  c <- Schema.as_str "content" abstract ;;
  l <- Schema.as_opt_str "url" (Some abstract_url) ;;
  Ok (mkContentItem t c "web" l (Naive now)
        [("type", JStr "abstract"); ("search_engine", JStr "duckduckgo")]).

Definition search_url (q : string) : string :=
  "https://api.duckduckgo.com/?q=" ++ q ++ "&format=json&no_html=1&skip_disambig=1".

(** Lines 136-144 up to the loop: the request, the status test, the
    decoding of the body and the slice of the related topics. [None] is
    a status other than 200. *)
Definition web_request (get : HttpGet) (q : string) (max : Z)
  : res (option (json * list json)) :=
  response <- get (search_url q) ;;
  if Z.eqb (status_code response) 200 then
    data <- json_body response ;;
    related <- py_get data "RelatedTopics" (JList []) ;;
    topics <- py_slice_iter max related ;;
    Ok (Some (data, topics))
  else Ok None.

(** Lines 156-164: the abstract, appended after the loop. *)
Definition web_abstract (now : Clock) (data : json) (q : string)
  (items : list ContentItem) : list ContentItem * option exn :=
  match py_get data "Abstract" JNull with
  | Raise e => (items, Some e)
  | Ok a =>
      if truthy a then
        match web_abstract_item data q (now (List.length items)) with
        | Ok it => ((items ++ [it])%list, None)
        | Raise e => (items, Some e)
        end
      else (items, None)
  end.

(** The [try] block of [aggregate_web_content] (lines 134-164): the items
    appended when it is left, and the exception that left it, if any. *)
Definition web_try (get : HttpGet) (now : Clock) (q : string) (max : Z)
  : list ContentItem * option exn :=
  match web_request get q max with
  | Raise e => ([], Some e)
  | Ok None => ([], None)
  | Ok (Some (data, topics)) =>
      match web_topics now topics [] with
      | (items, Some e) => (items, Some e)
      | (items, None) => web_abstract now data q items
      end
  end.

(** [aggregate_web_content]: the handler logs the exception and the
    function returns [items] either way. *)
Definition aggregate_web_content (get : HttpGet) (now : Clock)
  (q : string) (max : Z) : res (list ContentItem) :=
  Ok (fst (web_try get now q max)).

Definition opt_num (v : option Z) : json :=
  match v with Some n => JNum n | None => JNull end.

Definition opt_str_of_Z (v : option Z) : string :=
  match v with Some n => str_of_Z n | None => "None" end.

(** The item of one tweet (lines 189-200). *)
Definition tweet_item (tw : Tweet) (ts : datetime) : ContentItem :=
  mkContentItem
    ("Tweet by " ++ opt_str_of_Z (author_id tw))
    (tweet_text tw)
    "twitter"
    (Some ("https://twitter.com/i/status/" ++ str_of_Z (tweet_id tw)))
    ts
    [("tweet_id", JNum (tweet_id tw));
     ("author_id", opt_num (author_id tw));
     ("metrics", match public_metrics tw with
                 | Some m => JDict m
                 | None => JNull
                 end)].

(** The loop over [tweets.data]; [k] counts the clock readings taken so
    far, one for each tweet without [created_at]. *)
Fixpoint twitter_items (now : Clock) (k : nat) (tweets : list Tweet)
  : list ContentItem :=
  match tweets with
  | [] => []
  | tw :: rest =>
      match created_at tw with
      | Some ts => tweet_item tw ts :: twitter_items now k rest
      | None => tweet_item tw (Naive (now k)) :: twitter_items now (S k) rest
      end
  end.

(** The [try] block of [aggregate_twitter_content] (lines 179-200). *)
Definition twitter_try (client : TwitterClient) (now : Clock)
  (q : string) (max : Z) : list ContentItem * option exn :=
  match search_recent_tweets client q (Z.min max 100) with
  | Raise e => ([], Some e)
  | Ok None => ([], None)
  | Ok (Some data) => (twitter_items now 0 data, None)
  end.

(** [aggregate_twitter_content] *)
Definition aggregate_twitter_content (twitter_client : option TwitterClient)
  (now : Clock) (q : string) (max : Z) : res (list ContentItem) :=
  match twitter_client with
  | None => Ok []
  | Some client => Ok (fst (twitter_try client now q max))
  end.

(* ------------------------------------------------------------------ *)
(** ** Module state and observable calls *)

(** The module-level variables of lines 39-41. Nothing is ever stored in
    [aggregation_tasks], so the type of its elements is immaterial. *)
Record State : Type := mkState {
  twitter_client : option TwitterClient;
  openai_client : option LLMClient;
  aggregation_tasks : list json
}.

(** What a request does that the properties speak about: entering the
    orchestrator, and calling the language model. *)
Inductive event : Type :=
| Orchestrate (request : AggregationRequest)
| LLMInvoke (prompt : string).

(* ------------------------------------------------------------------ *)
(** ** Summarizer *)

Definition nl : string := String (ascii_of_nat 10) EmptyString.
Definition dquote : string := String (ascii_of_nat 34) EmptyString.
Definition indent : string := "        ".

Definition item_text (it : ContentItem) : string :=
  "Source: " ++ source it ++ nl ++
  "Title: " ++ title it ++ nl ++
  "Content: " ++ content it.

(** The prompt of lines 214-231, over the items already cut to ten. *)
Definition build_prompt (first_items : list ContentItem) (q : string)
  : string :=
  let combined_content := join (nl ++ nl) (map item_text first_items) in
  nl ++
  indent ++ "Please provide a comprehensive summary of the following content related to the query: "
         ++ dquote ++ q ++ dquote ++ nl ++
  indent ++ nl ++
  indent ++ "Content:" ++ nl ++
  indent ++ combined_content ++ nl ++
  indent ++ nl ++
  indent ++ "Summary should be:" ++ nl ++
  indent ++ "- Concise but informative (2-3 paragraphs)" ++ nl ++
  indent ++ "- Highlight key insights and trends" ++ nl ++
  indent ++ "- Mention different perspectives if present" ++ nl ++
  indent ++ "- Be objective and factual" ++ nl ++
  indent.

(** [generate_summary], with the calls it made to the language model. *)
Definition generate_summary (client : option LLMClient)
  (its : list ContentItem) (q : string) : option string * list event :=
  match client, its with
  | None, _ => (None, [])
  | Some _, [] => (None, [])
  | Some llm, _ :: _ =>
      let prompt := build_prompt (slice_to 10 its) q in
      match ainvoke llm prompt with
      | Ok text => (Some text, [LLMInvoke prompt])
      | Raise _ => (None, [LLMInvoke prompt])
      end
  end.

(* ------------------------------------------------------------------ *)
(** ** Aggregation orchestrator *)

(** What the two fetcher coroutines come to when awaited. The handler
    looks them up by name in the module, so a test may put other
    coroutines in their place; [real_fetchers] are the ones of the
    module as written. *)
Record Fetchers : Type := mkFetchers {
  fetch_web : string -> Z -> res (list ContentItem);
  fetch_twitter : string -> Z -> res (list ContentItem)
}.

Definition real_fetchers (st : State) (get : HttpGet)
  (web_now twitter_now : Clock) : Fetchers :=
  mkFetchers
    (aggregate_web_content get web_now)
    (aggregate_twitter_content (twitter_client st) twitter_now).

(** The two readings of [datetime.now()] by the handler (lines 279 and
    313), in microseconds; both are naive, and [processing_time] is
    their difference. *)
Record Timing : Type := mkTiming {
  start_time : Z;
  end_time : Z
}.

(** [tag in request.sources] *)
Definition mem (tag : string) (l : list string) : bool :=
  existsb (String.eqb tag) l.

Definition is_some {A} (o : option A) : bool :=
  match o with Some _ => true | None => false end.

(** Lines 285-293: the scheduled coroutines, each with the tag that is
    appended to [sources_used] next to it. *)
Definition schedule (st : State) (fx : Fetchers) (req : AggregationRequest)
  : list (string * res (list ContentItem)) :=
  ((if mem "web" (sources req)
    then [("web", fetch_web fx (query req) (max_results req))]
    else []) ++
   (if mem "twitter" (sources req) && is_some (twitter_client st)
    then [("twitter", fetch_twitter fx (query req) (max_results req))]
    else []))%list.

(** Lines 299-303 over the results of [asyncio.gather] called with
    [return_exceptions=True]: a list extends [all_items], an exception
    is logged. *)
Fixpoint collect (results : list (res (list ContentItem)))
  (all_items : list ContentItem) : list ContentItem :=
  match results with
  | [] => all_items
  | Ok l :: rest => collect rest (all_items ++ l)%list
  | Raise _ :: rest => collect rest all_items
  end.

Definition nonempty {A} (l : list A) : bool :=
  match l with [] => false | _ => true end.

(** Lines 308-311: the summary, asked for only when the request wants
    one and there are items. *)
Definition summary_step (st : State) (req : AggregationRequest)
  (all_items : list ContentItem) : option string * list event :=
  if summarize req && nonempty all_items
  then generate_summary (openai_client st) all_items (query req)
  else (None, []).

(** The [try] block of [aggregate_content] (lines 283-322). *)
Definition aggregate_try (st : State) (fx : Fetchers) (tm : Timing)
  (req : AggregationRequest) : res AggregationResult * list event :=
  let tasks := schedule st fx req in
  let used := map fst tasks in
  let gathered := collect (map snd tasks) [] in
  match Sort.sort_desc gathered with
  | Raise e => (Raise e, [])
  | Ok all_items =>
      let (summ, calls) := summary_step st req all_items in
      (Ok (mkAggregationResult (query req) all_items summ
             (Z.of_nat (List.length all_items)) used
             (end_time tm - start_time tm)),
       calls)
  end.

Inductive http_response : Type :=
| Http200 (result : AggregationResult)
| Http422
| Http500 (detail : string).

(** [aggregate_content]: an exception of the [try] block becomes
    [HTTPException(status_code=500, detail=str(e))]. *)
Definition aggregate_content (st : State) (fx : Fetchers) (tm : Timing)
  (req : AggregationRequest) : http_response * list event :=
  match aggregate_try st fx tm req with
  | (Ok r, calls) => (Http200 r, calls)
  | (Raise e, calls) => (Http500 (exn_str e), calls)
  end.

(** POST /aggregate: the body is validated against [AggregationRequest]
    before the handler runs. *)
Definition post_aggregate (st : State) (fx : Fetchers) (tm : Timing)
  (body : json) : http_response * list event :=
  match Schema.validate_request body with
  | Raise _ => (Http422, [])
  | Ok req =>
      let (reply, calls) := aggregate_content st fx tm req in
      (reply, Orchestrate req :: calls)
  end.

(* ------------------------------------------------------------------ *)
(** ** The other handlers and the service as a state machine *)

Record HealthStatus : Type := mkHealthStatus {
  health_status : string;
  health_timestamp : Z;
  health_services : list (string * string);
  version : string
}.

Record StatusReport : Type := mkStatusReport {
  service : string;
  status : string;
  status_timestamp : Z;
  active_tasks : Z;
  twitter_on : bool;
  openai_on : bool
}.

Definition availability {A} (o : option A) : string :=
  if is_some o then "available" else "unavailable".

Definition health_check (st : State) (now : Z) : HealthStatus :=
  mkHealthStatus "healthy" now
    [("twitter", availability (twitter_client st));
     ("openai", availability (openai_client st));
     ("web_aggregation", "available")]
    "1.0.0".

Definition get_status (st : State) (now : Z) : StatusReport :=
  mkStatusReport "AstraMesh QVic Reforge Chalice" "running" now
    (Z.of_nat (List.length (aggregation_tasks st)))
    (is_some (twitter_client st))
    (is_some (openai_client st)).

(** The environment read at start-up and the constructors of the two
    clients. *)
Record Env : Type := mkEnv {
  TWITTER_BEARER_TOKEN : option string;
  OPENAI_API_KEY : option string;
  new_twitter_client : string -> res TwitterClient;
  new_openai_client : string -> res LLMClient
}.

(** [if value:] on the result of [os.getenv]. *)
Definition env_value (v : option string) : option string :=
  match v with
  | Some s => if String.eqb s "" then None else Some s
  | None => None
  end.

Definition init_twitter (env : Env) (st : State) : res State :=
  match env_value (TWITTER_BEARER_TOKEN env) with
  | Some token =>
      c <- new_twitter_client env token ;;
      Ok (mkState (Some c) (openai_client st) (aggregation_tasks st))
  | None => Ok st
  end.

Definition init_openai (env : Env) (st : State) : res State :=
  match env_value (OPENAI_API_KEY env) with
  | Some key =>
      c <- new_openai_client env key ;;
      Ok (mkState (twitter_client st) (Some c) (aggregation_tasks st))
  | None => Ok st
  end.

(** [initialize_services]: an exception ends the block and keeps what was
    assigned before it. *)
Definition initialize_services (env : Env) (st : State) : State :=
  match init_twitter env st with
  | Raise _ => st
  | Ok st1 =>
      match init_openai env st1 with
      | Raise _ => st1
      | Ok st2 => st2
      end
  end.

(** The state at import time. *)
Definition initial_state : State := mkState None None [].

Inductive operation : Type :=
| Startup (env : Env)
| GetRoot (frontend : option string)
| GetHealth (now : Z)
| PostAggregate (fx : Fetchers) (tm : Timing) (body : json)
| GetStatus (now : Z).

Inductive reply : Type :=
| Started
| Html (page : string)
| Health (h : HealthStatus)
| Aggregate (r : http_response) (calls : list event)
| Status (s : StatusReport).

(** The four characters before the name in the heading of line 254, as
    their UTF-8 bytes. *)
Definition heading_mark : string :=
  string_of_list_ascii
    (map ascii_of_nat [195; 176; 197; 184; 197; 161; 226; 130; 172]%nat).

(** The inline page of lines 250-259. *)
Definition fallback_page : string :=
  nl ++
  "        <html>" ++ nl ++
  "            <head><title>AstraMesh QVic Reforge Chalice</title></head>" ++ nl ++
  "            <body>" ++ nl ++
  "                <h1>" ++ heading_mark ++ " AstraMesh QVic Reforge Chalice</h1>" ++ nl ++
  "                <p>AI-powered knowledge aggregator is running!</p>" ++ nl ++
  "                <p>API Documentation: <a href=" ++ dquote ++ "/docs" ++ dquote
    ++ ">/docs</a></p>" ++ nl ++
  "            </body>" ++ nl ++
  "        </html>" ++ nl ++
  "        ".

(** One operation on the module state: the state it leaves and its
    answer. Only [initialize_services] declares the globals it assigns;
    the handlers read them. *)
Definition step (st : State) (o : operation) : State * reply :=
  match o with
  | Startup env => (initialize_services env st, Started)
  | GetRoot frontend =>
      (st, Html (match frontend with Some p => p | None => fallback_page end))
  | GetHealth now => (st, Health (health_check st now))
  | PostAggregate fx tm body =>
      let (r, calls) := post_aggregate st fx tm body in
      (st, Aggregate r calls)
  | GetStatus now => (st, Status (get_status st now))
  end.

Definition run (st : State) (ops : list operation) : State :=
  fold_left (fun s o => fst (step s o)) ops st.

Inductive reachable : State -> Prop :=
| reachable_initial : reachable initial_state
| reachable_step (st : State) (o : operation) :
    reachable st -> reachable (fst (step st o)).

(* ------------------------------------------------------------------ *)
(** ** Vocabulary of the properties *)

(** [a >= b] on datetimes that Python can order. *)
Definition dt_ge (a b : datetime) : Prop :=
  is_aware a = is_aware b /\ instant b <= instant a.

(** Every adjacent pair (a, b) has [a.timestamp >= b.timestamp]. *)
Definition sorted_desc (l : list ContentItem) : Prop :=
  forall (i : nat) (a b : ContentItem),
    nth_error l i = Some a ->
    nth_error l (S i) = Some b ->
    dt_ge (timestamp a) (timestamp b).

(** The timestamps are all naive or all aware. *)
Definition comparable (l : list ContentItem) : Prop :=
  forall a b, In a l -> In b l ->
    is_aware (timestamp a) = is_aware (timestamp b).

(** The order that the ascending run is kept in. *)
Definition le_ts (x y : ContentItem) : Prop :=
  is_aware (timestamp x) = is_aware (timestamp y) /\
  instant (timestamp x) <= instant (timestamp y).

Definition ge_ts (x y : ContentItem) : Prop := le_ts y x.

(** The items of the coroutines that returned a list. *)
Definition returned_items (tasks : list (string * res (list ContentItem)))
  : list ContentItem :=
  flat_map (fun t => match snd t with Ok l => l | Raise _ => [] end) tasks.

(** The tags of the fetchers that a request schedules. *)
Definition scheduled_tags (st : State) (req : AggregationRequest)
  : list string :=
  ((if mem "web" (sources req) then ["web"] else []) ++
   (if mem "twitter" (sources req) && is_some (twitter_client st)
    then ["twitter"] else []))%list.

(* ------------------------------------------------------------------ *)
(** ** Sample collaborators *)

Module Example.

Definition clock : Clock := fun k => 1000 + Z.of_nat k.

Definition timing : Timing := mkTiming 0 2500000.

Definition topic (text : string) (first_url : json) : json :=
  JDict [("Text", JStr text); ("FirstURL", first_url)].

(** The provider answer of the test suite: one related topic and an
    abstract. *)
Definition payload : json :=
  JDict [("RelatedTopics",
          JList [topic "Test content from web" (JStr "https://example.com/test")]);
         ("Abstract", JStr "Test abstract");
         ("Heading", JStr "Test Heading");
         ("AbstractURL", JStr "https://example.com/abstract")].

(** A provider answer whose second related topic has a null FirstURL. *)
Definition payload_null_url : json :=
  JDict [("RelatedTopics",
          JList [topic "first topic" (JStr "https://example.com/first-topic");
                 topic "second topic" JNull;
                 topic "third topic" (JStr "https://example.com/third")])].

Definition get_ok (data : json) : HttpGet :=
  fun _ => Ok (mkResponse 200 (Ok data)).

Definition get_down : HttpGet :=
  fun _ => Raise (NetworkError "connection refused").

Definition dated_tweets : list Tweet :=
  [mkTweet 1 "older tweet" (Some 7) (Some (Aware 50)) None;
   mkTweet 2 "newer tweet" (Some 8) (Some (Aware 70)) None].

(** One tweet with [created_at] and one without. *)
Definition half_dated_tweets : list Tweet :=
  [mkTweet 1 "dated tweet" (Some 7) (Some (Aware 50)) None;
   mkTweet 2 "undated tweet" (Some 8) None None].

Definition twitter (data : list Tweet) : TwitterClient :=
  mkTwitterClient (fun _ _ => Ok (Some data)).

Definition twitter_down : TwitterClient :=
  mkTwitterClient (fun _ _ => Raise (ProviderError "401 Unauthorized")).

Definition llm : LLMClient := mkLLMClient (fun _ => Ok "A summary.").

Definition llm_down : LLMClient :=
  mkLLMClient (fun _ => Raise (ProviderError "rate limit exceeded")).

Definition state (tweets : list Tweet) (model : LLMClient) : State :=
  mkState (Some (twitter tweets)) (Some model) [].

(** The fetchers of the module over a working web provider. *)
Definition fetchers (st : State) : Fetchers :=
  real_fetchers st (get_ok payload) clock clock.

(** The web fetcher replaced by a coroutine that raises, the Twitter
    fetcher as written. *)
Definition fetchers_web_raises (st : State) : Fetchers :=
  mkFetchers
    (fun _ _ => Raise (NetworkError "simulated network error"))
    (aggregate_twitter_content (twitter_client st) clock).

Definition request (srcs : list string) (summ : bool) : AggregationRequest :=
  mkAggregationRequest "test query" srcs 5 summ.

Definition env : Env :=
  mkEnv (Some "token") None
        (fun _ => Ok (twitter dated_tweets))
        (fun _ => Ok llm).

End Example.

(* ------------------------------------------------------------------ *)
(** ** Further vocabulary *)

(** [a == b] on datetimes: a naive and an aware one are never equal. *)
Definition dt_eqb (a b : datetime) : bool :=
  match a, b with
  | Naive x, Naive y => Z.eqb x y
  | Aware x, Aware y => Z.eqb x y
  | _, _ => false
  end.

(** The items stamped [t], in the order of the list. *)
Definition stamped (t : datetime) (l : list ContentItem) : list ContentItem :=
  filter (fun x => dt_eqb (timestamp x) t) l.

(** The body that a client posts for a request with every field given
    (tests, lines 113-118). *)
Definition request_body (req : AggregationRequest) : json :=
  JDict [("query", JStr (query req));
         ("sources", JList (map JStr (sources req)));
         ("max_results", JNum (max_results req));
         ("summarize", JBool (summarize req))].

(** The test of line 145 on one related topic. *)
Definition is_text_topic (topic : json) : bool :=
  match topic with
  | JDict d => has_key "Text" d
  | _ => false
  end.

(** [c in s] for a character. *)
Fixpoint contains (c : ascii) (s : string) : bool :=
  match s with
  | EmptyString => false
  | String x s' => Ascii.eqb x c || contains c s'
  end.

(** Text of ASCII characters only. *)
Fixpoint is_ascii (s : string) : bool :=
  match s with
  | EmptyString => true
  | String x s' => (nat_of_ascii x <? 128)%nat && is_ascii s'
  end.

(** The operations that are requests to a handler. *)
Definition is_request (o : operation) : bool :=
  match o with
  | Startup _ => false
  | _ => true
  end.

(** What a tweet and its item have in common (lines 189-200). *)
Definition item_of_tweet (tw : Tweet) (it : ContentItem) : Prop :=
  content it = tweet_text tw /\
  source it = "twitter" /\
  url it = Some ("https://twitter.com/i/status/" ++ str_of_Z (tweet_id tw)) /\
  (forall ts, created_at tw = Some ts -> timestamp it = ts) /\
  (created_at tw = None -> is_aware (timestamp it) = false).

(** What every item of the web fetcher carries. *)
Definition web_stamped (now : Clock) (l : list ContentItem) : Prop :=
  Forall (fun it => source it = "web" /\
                    assoc "search_engine" (metadata it)
                      = Some (JStr "duckduckgo")) l /\
  map timestamp l = map (fun k => Naive (now k)) (seq 0 (List.length l)).

Module Fixture.

Definition item (k : Z) : ContentItem :=
  mkContentItem "Title" ("content " ++ str_of_Z k) "web" None (Naive k) [].

Definition ten_items : list ContentItem :=
  map item [10; 9; 8; 7; 6; 5; 4; 3; 2; 1].

(** Two items with one timestamp around a newer one. *)
Definition tied_tweets : list Tweet :=
  [mkTweet 1 "first at 50" (Some 7) (Some (Aware 50)) None;
   mkTweet 2 "at 70" (Some 8) (Some (Aware 70)) None;
   mkTweet 3 "second at 50" (Some 9) (Some (Aware 50)) None].

(** An environment with both credentials in which the Twitter client
    cannot be built. *)
Definition env_twitter_broken : Env :=
  mkEnv (Some "token") (Some "key")
        (fun _ => Raise (ProviderError "invalid bearer token"))
        (fun _ => Ok Example.llm).

(** An environment in which the language-model client cannot be built. *)
Definition env_openai_broken : Env :=
  mkEnv (Some "token") (Some "key")
        (fun _ => Ok (Example.twitter Example.dated_tweets))
        (fun _ => Raise (ProviderError "invalid api key")).

(** A Twitter client that keeps to the count it is asked for, and that
    refuses a count under ten. *)
Definition twitter_capped (data : list Tweet) : TwitterClient :=
  mkTwitterClient
    (fun _ n =>
       if Z.leb 10 n then Ok (Some (firstn (Z.to_nat n) data))
       else Raise (ProviderError "400 Bad Request")).

Definition many_tweets : list Tweet :=
  map (fun k => mkTweet k "tweet" (Some k) (Some (Aware k)) None)
      [1; 2; 3; 4; 5; 6; 7; 8; 9; 10; 11; 12].

(** A provider answer with one related topic and an abstract whose
    heading is null. *)
Definition payload_null_heading : json :=
  JDict [("RelatedTopics",
          JList [Example.topic "kept topic" (JStr "https://example.com/kept")]);
         ("Abstract", JStr "An abstract");
         ("Heading", JNull)].

(** A provider answer with a group of topics between two topics. *)
Definition payload_grouped : json :=
  JDict [("RelatedTopics",
          JList [Example.topic "one" (JStr "https://example.com/one");
                 JDict [("Name", JStr "Group"); ("Topics", JList [])];
                 JStr "stray";
                 Example.topic "two" (JStr "https://example.com/c/two-words")])].

End Fixture.

(* ------------------------------------------------------------------ *)
(** ** The sort *)

Lemma dt_lt_ok (a b : datetime) (c : bool) :
  dt_lt a b = Ok c ->
  is_aware a = is_aware b /\ c = Z.ltb (instant a) (instant b).
Proof.
  destruct a, b; simpl; intros H; inversion H; auto.
Qed.

Lemma dt_lt_same_kind (a b : datetime) :
  is_aware a = is_aware b -> dt_lt a b = Ok (Z.ltb (instant a) (instant b)).
Proof.
  destruct a, b; simpl; intros H; try discriminate; reflexivity.
Qed.

Lemma le_ts_trans (x y z : ContentItem) : le_ts x y -> le_ts y z -> le_ts x z.
Proof.
  unfold le_ts. intros [K1 L1] [K2 L2]. split; [congruence | lia].
Qed.

Lemma insert_sorted (p : ContentItem) (run r : list ContentItem) :
  Sort.insert p run = Ok r ->
  StronglySorted le_ts run ->
  StronglySorted le_ts r /\ Permutation (p :: run) r.
Proof.
  revert r. induction run as [|y run IH]; simpl; intros r H S.
  - inversion H; subst. split; [repeat constructor | apply Permutation_refl].
  - destruct (dt_lt (timestamp p) (timestamp y)) as [c|e] eqn:E;
      simpl in H; [|discriminate].
    apply dt_lt_ok in E. destruct E as [K C].
    inversion S as [|? ? S' F]; subst.
    destruct (Z.ltb_spec (instant (timestamp p)) (instant (timestamp y))) as [L|L].
    + inversion H; subst. split; [|apply Permutation_refl].
      assert (Hpy : le_ts p y) by (split; [exact K | lia]).
      constructor; [exact S|].
      constructor; [exact Hpy|].
      eapply Forall_impl; [|exact F].
      intros z Hz. eapply le_ts_trans; eauto.
    + destruct (Sort.insert p run) as [r'|e] eqn:E'; simpl in H; [|discriminate].
      inversion H; subst.
      destruct (IH r' eq_refl S') as [Sr Pr].
      split.
      * constructor; [exact Sr|].
        eapply Permutation_Forall; [exact Pr|].
        constructor; [|exact F].
        split; [symmetry; exact K | lia].
      * eapply perm_trans; [apply perm_swap|].
        apply perm_skip. exact Pr.
Qed.

Lemma sort_onto_sorted (l run r : list ContentItem) :
  Sort.sort_onto run l = Ok r ->
  StronglySorted le_ts run ->
  StronglySorted le_ts r /\ Permutation (run ++ l) r.
Proof.
  revert run r. induction l as [|x l IH]; simpl; intros run r H S.
  - inversion H; subst. rewrite app_nil_r. split; [exact S | apply Permutation_refl].
  - destruct (Sort.insert x run) as [run'|e] eqn:E; simpl in H; [|discriminate].
    destruct (insert_sorted _ _ _ E S) as [S' P'].
    destruct (IH _ _ H S') as [Sr Pr].
    split; [exact Sr|].
    eapply perm_trans; [|exact Pr].
    eapply perm_trans; [apply Permutation_sym, Permutation_middle|].
    exact (Permutation_app_tail l P').
Qed.

Lemma StronglySorted_snoc {A} (R : A -> A -> Prop) (l : list A) (a : A) :
  StronglySorted R l -> Forall (fun x => R x a) l ->
  StronglySorted R (l ++ [a]).
Proof.
  induction l as [|x l IH]; simpl; intros S F.
  - repeat constructor.
  - inversion S; subst. inversion F; subst.
    constructor; [apply IH; assumption|].
    apply Forall_app. split; [assumption | repeat constructor; assumption].
Qed.

Lemma StronglySorted_rev {A} (R : A -> A -> Prop) (l : list A) :
  StronglySorted R l -> StronglySorted (fun x y => R y x) (rev l).
Proof.
  induction 1 as [|a l S IH F]; simpl.
  - constructor.
  - apply StronglySorted_snoc; [exact IH|].
    apply Forall_rev. exact F.
Qed.

Lemma sort_desc_sorted (l r : list ContentItem) :
  Sort.sort_desc l = Ok r ->
  StronglySorted ge_ts r /\ Permutation l r.
Proof.
  unfold Sort.sort_desc, Sort.sort_asc. intros H.
  destruct (Sort.sort_onto [] (rev l)) as [a|e] eqn:E; simpl in H; [|discriminate].
  inversion H; subst.
  destruct (sort_onto_sorted _ _ _ E (SSorted_nil _)) as [S P].
  split.
  - apply StronglySorted_rev in S. exact S.
  - simpl in P.
    eapply perm_trans; [apply Permutation_rev|].
    eapply perm_trans; [exact P|]. apply Permutation_rev.
Qed.

Lemma StronglySorted_adjacent (l : list ContentItem) :
  StronglySorted ge_ts l -> sorted_desc l.
Proof.
  unfold sorted_desc. induction 1 as [|x l S IH F]; intros i a b Ha Hb.
  - destruct i; discriminate.
  - destruct i as [|i].
    + inversion Ha; subst.
      apply (nth_error_In l 0) in Hb.
      rewrite Forall_forall in F. specialize (F _ Hb).
      destruct F as [K L]. split; [symmetry; exact K | exact L].
    + exact (IH i a b Ha Hb).
Qed.

(** The sort raises exactly when it is given naive and aware timestamps
    together: whatever the order in which a sort compares, this decides
    whether [list.sort] returns. *)
Lemma insert_total (p : ContentItem) (run : list ContentItem) :
  (forall y, In y run -> is_aware (timestamp p) = is_aware (timestamp y)) ->
  exists r, Sort.insert p run = Ok r.
Proof.
  induction run as [|y run IH]; simpl; intros H.
  - eexists; reflexivity.
  - rewrite dt_lt_same_kind by (apply H; left; reflexivity). simpl.
    destruct (Z.ltb _ _); [eexists; reflexivity|].
    destruct IH as [r Hr]; [intros; apply H; right; assumption|].
    rewrite Hr. simpl. eexists; reflexivity.
Qed.

Lemma insert_perm (p : ContentItem) (run r : list ContentItem) :
  Sort.insert p run = Ok r -> Permutation (p :: run) r.
Proof.
  revert r. induction run as [|y run IH]; simpl; intros r H.
  - inversion H; apply Permutation_refl.
  - destruct (dt_lt (timestamp p) (timestamp y)) as [c|]; simpl in H; [|discriminate].
    destruct c; [inversion H; apply Permutation_refl|].
    destruct (Sort.insert p run) as [r'|]; simpl in H; [|discriminate].
    inversion H; subst.
    eapply perm_trans; [apply perm_swap|].
    apply perm_skip. apply IH. reflexivity.
Qed.

Lemma sort_onto_total (l run : list ContentItem) :
  comparable (run ++ l) -> exists r, Sort.sort_onto run l = Ok r.
Proof.
  revert run. induction l as [|x l IH]; simpl; intros run C.
  - eexists; reflexivity.
  - destruct (insert_total x run) as [run' E].
    { intros y Hy. apply C; apply in_or_app; [right; left; reflexivity | left; exact Hy]. }
    rewrite E. simpl. apply IH.
    pose proof (insert_perm _ _ _ E) as P.
    intros a b Ha Hb. apply C.
    + apply in_app_or in Ha. destruct Ha as [Ha|Ha].
      * apply (Permutation_in _ (Permutation_sym P)) in Ha.
        destruct Ha as [<-|Ha]; apply in_or_app; [right; left; reflexivity | left; exact Ha].
      * apply in_or_app; right; right; exact Ha.
    + apply in_app_or in Hb. destruct Hb as [Hb|Hb].
      * apply (Permutation_in _ (Permutation_sym P)) in Hb.
        destruct Hb as [<-|Hb]; apply in_or_app; [right; left; reflexivity | left; exact Hb].
      * apply in_or_app; right; right; exact Hb.
Qed.

Lemma sort_desc_total (l : list ContentItem) :
  comparable l -> exists r, Sort.sort_desc l = Ok r.
Proof.
  intros C. unfold Sort.sort_desc, Sort.sort_asc.
  destruct (sort_onto_total (rev l) []) as [r E].
  - simpl. intros a b Ha Hb. apply C; apply in_rev; assumption.
  - rewrite E. simpl. eexists; reflexivity.
Qed.

Lemma sort_desc_comparable (l r : list ContentItem) :
  Sort.sort_desc l = Ok r -> comparable l.
Proof.
  intros H. destruct (sort_desc_sorted _ _ H) as [S P].
  assert (C : comparable r).
  { clear H P. induction S as [|x r S IH F]; intros a b Ha Hb.
    - destruct Ha.
    - rewrite Forall_forall in F.
      destruct Ha as [<-|Ha], Hb as [<-|Hb].
      + reflexivity.
      + destruct (F _ Hb) as [K _]. symmetry; exact K.
      + destruct (F _ Ha) as [K _]. exact K.
      + apply IH; assumption. }
  intros a b Ha Hb. apply C; eapply Permutation_in; eauto.
Qed.

(* ------------------------------------------------------------------ *)
(** ** The orchestrator, step by step *)

Lemma collect_returned (tasks : list (string * res (list ContentItem)))
  (acc : list ContentItem) :
  collect (map snd tasks) acc = (acc ++ returned_items tasks)%list.
Proof.
  revert acc. induction tasks as [|[tag [l|e]] tasks IH]; simpl; intros acc.
  - symmetry; apply app_nil_r.
  - rewrite IH. symmetry; apply app_assoc.
  - apply IH.
Qed.

Lemma schedule_tags (st : State) (fx : Fetchers) (req : AggregationRequest) :
  map fst (schedule st fx req) = scheduled_tags st req.
Proof.
  unfold schedule, scheduled_tags.
  destruct (mem "web" (sources req));
    destruct (mem "twitter" (sources req) && is_some (twitter_client st));
    reflexivity.
Qed.

Lemma aggregate_ok_inv (st : State) (fx : Fetchers) (tm : Timing)
  (req : AggregationRequest) (r : AggregationResult) (calls : list event) :
  aggregate_content st fx tm req = (Http200 r, calls) ->
  exists all_items,
    Sort.sort_desc (returned_items (schedule st fx req)) = Ok all_items /\
    r = mkAggregationResult (query req) all_items
          (fst (summary_step st req all_items))
          (Z.of_nat (List.length all_items))
          (scheduled_tags st req)
          (end_time tm - start_time tm) /\
    calls = snd (summary_step st req all_items).
Proof.
  unfold aggregate_content, aggregate_try.
  rewrite collect_returned, schedule_tags. simpl.
  destruct (Sort.sort_desc _) as [all_items|e] eqn:Hs; [|discriminate].
  destruct (summary_step st req all_items) as [summ cs] eqn:Hsum.
  intros H. inversion H; subst. exists all_items.
  rewrite Hsum. repeat split; reflexivity.
Qed.

Lemma aggregate_ok_intro (st : State) (fx : Fetchers) (tm : Timing)
  (req : AggregationRequest) (all_items : list ContentItem) :
  Sort.sort_desc (returned_items (schedule st fx req)) = Ok all_items ->
  aggregate_content st fx tm req =
    (Http200 (mkAggregationResult (query req) all_items
                (fst (summary_step st req all_items))
                (Z.of_nat (List.length all_items))
                (scheduled_tags st req)
                (end_time tm - start_time tm)),
     snd (summary_step st req all_items)).
Proof.
  intros H. unfold aggregate_content, aggregate_try.
  rewrite collect_returned, schedule_tags. simpl. rewrite H.
  destruct (summary_step st req all_items) as [summ cs]. reflexivity.
Qed.

(* ------------------------------------------------------------------ *)
(** ** Ordering and size of the result *)

(** C1. The [items] of every returned AggregationResult are sorted by
    timestamp, newest first: every adjacent pair (a, b) has
    a.timestamp >= b.timestamp. *)
Theorem items_sorted_newest_first (st : State) (fx : Fetchers) (tm : Timing)
  (req : AggregationRequest) (r : AggregationResult) (calls : list event) :
  aggregate_content st fx tm req = (Http200 r, calls) ->
  sorted_desc (items r).
Proof.
  intros H. apply aggregate_ok_inv in H.
  destruct H as (all_items & Hs & -> & _). simpl.
  apply StronglySorted_adjacent.
  apply (sort_desc_sorted _ _ Hs).
Qed.

Lemma items_sorted_newest_first_witness :
  exists r calls,
    aggregate_content (Example.state Example.dated_tweets Example.llm)
      (Example.fetchers_web_raises (Example.state Example.dated_tweets Example.llm))
      Example.timing (Example.request ["web"; "twitter"] true)
    = (Http200 r, calls) /\
    map timestamp (items r) = [Aware 70; Aware 50] /\
    sorted_desc (items r).
Proof.
  eexists. eexists.
  split; [vm_compute; reflexivity|].
  split; [reflexivity|].
  eapply (items_sorted_newest_first
           (Example.state Example.dated_tweets Example.llm)
           (Example.fetchers_web_raises (Example.state Example.dated_tweets Example.llm))
           Example.timing (Example.request ["web"; "twitter"] true) _ _).
  vm_compute; reflexivity.
Defined.

(** The request returns a result whenever the timestamps of the
    collected items can be ordered. *)
Lemma aggregate_returns (st : State) (fx : Fetchers) (tm : Timing)
  (req : AggregationRequest) :
  comparable (returned_items (schedule st fx req)) ->
  exists r calls, aggregate_content st fx tm req = (Http200 r, calls).
Proof.
  intros C. destruct (sort_desc_total _ C) as [all_items Hs].
  rewrite (aggregate_ok_intro _ _ tm _ _ Hs). eauto.
Qed.

(** C9. [total_items] of every returned AggregationResult is the length
    of its [items]. *)
Theorem total_items_is_length (st : State) (fx : Fetchers) (tm : Timing)
  (req : AggregationRequest) (r : AggregationResult) (calls : list event) :
  aggregate_content st fx tm req = (Http200 r, calls) ->
  total_items r = Z.of_nat (List.length (items r)).
Proof.
  intros H. apply aggregate_ok_inv in H.
  destruct H as (all_items & _ & -> & _). reflexivity.
Qed.

Lemma total_items_is_length_witness :
  exists r calls,
    aggregate_content (mkState None None []) (Example.fetchers (mkState None None []))
      Example.timing (Example.request ["web"] false)
    = (Http200 r, calls) /\
    total_items r = 2 /\
    total_items r = Z.of_nat (List.length (items r)).
Proof.
  eexists. eexists.
  split; [vm_compute; reflexivity|].
  split; [reflexivity|].
  eapply (total_items_is_length (mkState None None [])
           (Example.fetchers (mkState None None []))
           Example.timing (Example.request ["web"] false) _ _).
  vm_compute; reflexivity.
Defined.

(* ------------------------------------------------------------------ *)
(** ** A fetcher that raises *)

Lemma returned_items_incl (tasks : list (string * res (list ContentItem)))
  (tag : string) (l : list ContentItem) :
  In (tag, Ok l) tasks -> incl l (returned_items tasks).
Proof.
  intros H x Hx. unfold returned_items. apply in_flat_map.
  exists (tag, Ok l). split; [exact H | exact Hx].
Qed.

(** X25. The exception of a fetcher is kept out of the result. When a
    scheduled fetcher raises and another one returns, and the timestamps
    of the returned items can be ordered (all naive or all aware), the
    request answers 200: the items are those of the fetchers that
    returned and no other, and [sources_used] lists every scheduled tag,
    the one of the failed fetcher included. *)
Lemma fetch_failure_is_isolated (st : State) (fx : Fetchers) (tm : Timing)
  (req : AggregationRequest) (tag_failed tag_ok : string) (e : exn)
  (l : list ContentItem) :
  In (tag_failed, Raise e) (schedule st fx req) ->
  In (tag_ok, Ok l) (schedule st fx req) ->
  comparable (returned_items (schedule st fx req)) ->
  exists r calls,
    aggregate_content st fx tm req = (Http200 r, calls) /\
    Permutation (returned_items (schedule st fx req)) (items r) /\
    incl l (items r) /\
    sources_used r = scheduled_tags st req /\
    In tag_failed (sources_used r) /\
    In tag_ok (sources_used r).
Proof.
  intros Hf Ho C.
  destruct (sort_desc_total _ C) as [all_items Hs].
  destruct (sort_desc_sorted _ _ Hs) as [_ P].
  eexists. eexists.
  split; [apply (aggregate_ok_intro _ _ tm _ _ Hs)|]. simpl.
  split; [exact P|].
  split.
  - intros x Hx. apply (Permutation_in _ P).
    apply (returned_items_incl _ _ _ Ho). exact Hx.
  - rewrite <- (schedule_tags st fx req).
    split; [reflexivity|].
    split; [apply (in_map fst _ _ Hf) | apply (in_map fst _ _ Ho)].
Qed.

Lemma fetch_failure_is_isolated_example :
  let st := Example.state Example.dated_tweets Example.llm in
  let fx := Example.fetchers_web_raises st in
  let req := Example.request ["web"; "twitter"] true in
  exists r calls,
    aggregate_content st fx Example.timing req = (Http200 r, calls) /\
    map content (items r) = ["newer tweet"; "older tweet"] /\
    sources_used r = ["web"; "twitter"].
Proof.
  intros st fx req.
  destruct (fetch_failure_is_isolated st fx Example.timing req
              "web" "twitter" (NetworkError "simulated network error")
              (twitter_items Example.clock 0 Example.dated_tweets))
    as (r & calls & H & _ & _ & Hu & _).
  - left; reflexivity.
  - right; left; reflexivity.
  - intros a b Ha Hb. simpl in Ha, Hb.
    destruct Ha as [<-|[<-|[]]], Hb as [<-|[<-|[]]]; reflexivity.
  - exists r, calls.
    split; [exact H|].
    split; [|exact Hu].
    vm_compute in H. inversion H. reflexivity.
Defined.

(** C2 does not hold of the code. The web fetcher raises and the Twitter
    fetcher returns a tweet that carries [created_at] next to one
    stamped with [datetime.now()]: the sort raises on the aware and the
    naive timestamp and the request answers 500. *)
Theorem fetch_failure_answers_500 :
  let st := Example.state Example.half_dated_tweets Example.llm in
  let fx := Example.fetchers_web_raises st in
  let req := Example.request ["web"; "twitter"] true in
  In ("web", Raise (NetworkError "simulated network error")) (schedule st fx req) /\
  In ("twitter", Ok (twitter_items Example.clock 0 Example.half_dated_tweets))
     (schedule st fx req) /\
  map timestamp (twitter_items Example.clock 0 Example.half_dated_tweets)
    = [Aware 50; Naive 1000] /\
  aggregate_content st fx Example.timing req
    = (Http500 "can't compare offset-naive and offset-aware datetimes", []).
Proof.
  intros st fx req.
  split; [left; reflexivity|].
  split; [right; left; reflexivity|].
  split; reflexivity.
Qed.

(** The sort fails in the same way without any fetcher failing: the
    web provider answers, its items are stamped with [datetime.now()],
    and the tweets carry an aware [created_at]. *)
Lemma both_sources_answer_500 :
  let st := Example.state Example.dated_tweets Example.llm in
  aggregate_content st (Example.fetchers st) Example.timing
    (Example.request ["web"; "twitter"] true)
  = (Http500 "can't compare offset-naive and offset-aware datetimes", []).
Proof. reflexivity. Qed.

(* ------------------------------------------------------------------ *)
(** ** The size of a fetch *)

Lemma slice_to_length {A} (n : Z) (l : list A) :
  0 <= n -> (List.length (slice_to n l) <= Z.to_nat n)%nat.
Proof.
  intros H. unfold slice_to.
  destruct (Z.leb_spec 0 n); [|lia].
  rewrite length_firstn. lia.
Qed.

Lemma py_slice_iter_length (n : Z) (v : json) (topics : list json) :
  0 <= n -> py_slice_iter n v = Ok topics ->
  (List.length topics <= Z.to_nat n)%nat.
Proof.
  intros Hn H. destruct v; simpl in H; try discriminate;
    inversion H; subst; apply slice_to_length; exact Hn.
Qed.

Lemma web_topics_length (now : Clock) (topics : list json)
  (acc : list ContentItem) :
  (List.length (fst (web_topics now topics acc))
   <= List.length acc + List.length topics)%nat.
Proof.
  revert acc. induction topics as [|t topics IH]; simpl; intros acc.
  - lia.
  - destruct t; try (specialize (IH acc); lia).
    destruct (has_key "Text" d); [|specialize (IH acc); lia].
    destruct (web_topic_item d _) as [it|e]; simpl; [|lia].
    specialize (IH (acc ++ [it])%list). rewrite length_app in IH. simpl in IH. lia.
Qed.

Lemma web_abstract_length (now : Clock) (data : json) (q : string)
  (acc : list ContentItem) :
  (List.length (fst (web_abstract now data q acc)) <= List.length acc + 1)%nat.
Proof.
  unfold web_abstract.
  destruct (py_get data "Abstract" JNull) as [a|e]; simpl; [|lia].
  destruct (truthy a); simpl; [|lia].
  destruct (web_abstract_item data q _); simpl; [|lia].
  rewrite length_app. simpl. lia.
Qed.

(** X10. For a [max_results] that is not negative, the web fetcher
    returns at most [max_results] topic items and the abstract:
    [max_results + 1] items at most. *)
Lemma web_fetcher_bound (get : HttpGet) (now : Clock) (q : string)
  (max : Z) (its : list ContentItem) :
  0 <= max ->
  aggregate_web_content get now q max = Ok its ->
  Z.of_nat (List.length its) <= max + 1.
Proof.
  intros Hm H. unfold aggregate_web_content in H. inversion H; subst; clear H.
  unfold web_try.
  destruct (web_request get q max) as [[[data topics]|]|e] eqn:R; simpl; try lia.
  assert (Ht : (List.length topics <= Z.to_nat max)%nat).
  { unfold web_request in R.
    destruct (get (search_url q)) as [resp|]; simpl in R; [|discriminate].
    destruct (Z.eqb (status_code resp) 200); [|discriminate].
    destruct (json_body resp) as [d|]; simpl in R; [|discriminate].
    destruct (py_get d "RelatedTopics" (JList [])) as [rel|]; simpl in R; [|discriminate].
    destruct (py_slice_iter max rel) as [ts|] eqn:S; simpl in R; [|discriminate].
    inversion R; subst. eapply py_slice_iter_length; eauto. }
  pose proof (web_topics_length now topics []) as L.
  destruct (web_topics now topics []) as [items [e|]]; simpl in *.
  - lia.
  - pose proof (web_abstract_length now data q items). lia.
Qed.

Lemma twitter_items_length (now : Clock) (k : nat) (tweets : list Tweet) :
  List.length (twitter_items now k tweets) = List.length tweets.
Proof.
  revert k. induction tweets as [|tw tweets IH]; simpl; intros k; [reflexivity|].
  destruct (created_at tw); simpl; rewrite IH; reflexivity.
Qed.

(** X24. The Twitter fetcher returns as many items as the provider
    returns tweets: for a positive [max_results] it returns at most
    [max_results] items when the provider keeps to the count that it is
    asked for. *)
Lemma twitter_fetcher_bound (client : TwitterClient) (now : Clock)
  (q : string) (max : Z) (its : list ContentItem) :
  (forall n data, search_recent_tweets client q n = Ok (Some data) ->
                  Z.of_nat (List.length data) <= n) ->
  0 < max ->
  aggregate_twitter_content (Some client) now q max = Ok its ->
  Z.of_nat (List.length its) <= max.
Proof.
  intros Hp Hm H. simpl in H. inversion H; subst; clear H.
  unfold twitter_try.
  destruct (search_recent_tweets client q (Z.min max 100)) as [[data|]|e] eqn:S;
    simpl; try lia.
  rewrite twitter_items_length. specialize (Hp _ _ S). lia.
Qed.

(** C3 fails on the web fetcher: with [max_results = 1], one related
    topic and an abstract, it returns two items. *)
Theorem web_fetcher_exceeds_max_results :
  exists its,
    aggregate_web_content (Example.get_ok Example.payload) Example.clock
      "test query" 1 = Ok its /\
    map content its = ["Test content from web"; "Test abstract"] /\
    Z.of_nat (List.length its) = 2.
Proof.
  eexists. split; [vm_compute; reflexivity|].
  split; reflexivity.
Qed.

(* ------------------------------------------------------------------ *)
(** ** Failures inside a fetcher *)

(** An exception in the loop over the related topics keeps the items of
    the topics before the one that raised. *)
Lemma web_topics_failure_prefix (now : Clock) (topics : list json)
  (acc its : list ContentItem) (e : exn) :
  web_topics now topics acc = (its, Some e) ->
  exists good bad rest,
    topics = (good ++ JDict bad :: rest)%list /\
    web_topics now good acc = (its, None) /\
    has_key "Text" bad = true /\
    web_topic_item bad (now (List.length its)) = Raise e.
Proof.
  revert acc. induction topics as [|t topics IH]; simpl; intros acc H.
  - discriminate.
  - assert (Skip : web_topics now topics acc = (its, Some e) ->
                   web_topics now [t] acc = (acc, None) ->
                   exists good bad rest,
                     (t :: topics = good ++ JDict bad :: rest)%list /\
                     web_topics now good acc = (its, None) /\
                     has_key "Text" bad = true /\
                     web_topic_item bad (now (List.length its)) = Raise e).
    { intros H1 H2. destruct (IH _ H1) as (good & bad & rest & -> & Hg & Hk & Hb).
      exists (t :: good), bad, rest. repeat split; try assumption.
      clear - H2 Hg. simpl in *.
      destruct t; try exact Hg.
      destruct (has_key "Text" d); [|exact Hg].
      destruct (web_topic_item d _); [|discriminate].
      inversion H2 as [H3].
      apply (f_equal (@List.length _)) in H3. rewrite length_app in H3.
      simpl in H3. lia. }
    destruct t; try (apply Skip; [exact H | reflexivity]).
    destruct (has_key "Text" d) eqn:K.
    + destruct (web_topic_item d (now (List.length acc))) as [it|e'] eqn:W.
      * destruct (IH _ H) as (good & bad & rest & -> & Hg & Hk & Hb).
        exists (JDict d :: good), bad, rest. repeat split; try assumption.
        simpl. rewrite K, W. exact Hg.
      * inversion H; subst. exists [], d, topics.
        repeat split; assumption.
    + apply Skip; [exact H|]. simpl. rewrite K. reflexivity.
Qed.

(** C4, amended. Neither fetcher raises to its caller. The Twitter
    fetcher returns an empty sequence when the client is missing or the
    search call fails. The web fetcher returns an empty sequence when
    the request, the decoding of the body or the slice of the related
    topics fails; when building an item fails, the item of a related
    topic or the item of the abstract, it returns the items appended
    before the failure. *)
Theorem fetcher_failure_is_contained (get : HttpGet) (now : Clock)
  (client : option TwitterClient) (q : string) (max : Z) :
  (exists its,
     aggregate_web_content get now q max = Ok its /\
     (forall e, web_request get q max = Raise e -> its = []) /\
     (forall e, get (search_url q) = Raise e -> its = []) /\
     (forall response e,
        get (search_url q) = Ok response ->
        json_body response = Raise e -> its = []) /\
     (forall response data,
        get (search_url q) = Ok response ->
        json_body response = Ok data ->
        (forall d, data <> JDict d) -> its = []) /\
     (forall response data related e,
        get (search_url q) = Ok response ->
        json_body response = Ok data ->
        py_get data "RelatedTopics" (JList []) = Ok related ->
        py_slice_iter max related = Raise e -> its = []) /\
     (forall data topics kept e,
        web_request get q max = Ok (Some (data, topics)) ->
        web_topics now topics [] = (kept, Some e) ->
        its = kept /\
        exists good bad rest,
          topics = (good ++ JDict bad :: rest)%list /\
          web_topics now good [] = (its, None) /\
          web_topic_item bad (now (List.length its)) = Raise e) /\
     (forall data topics kept a e,
        web_request get q max = Ok (Some (data, topics)) ->
        web_topics now topics [] = (kept, None) ->
        py_get data "Abstract" JNull = Ok a ->
        truthy a = true ->
        web_abstract_item data q (now (List.length kept)) = Raise e ->
        its = kept)) /\
  (exists its,
     aggregate_twitter_content client now q max = Ok its /\
     (client = None -> its = []) /\
     (forall c e, client = Some c ->
        search_recent_tweets c q (Z.min max 100) = Raise e -> its = [])).
Proof.
  split.
  - eexists. split; [reflexivity|]. unfold web_try.
    split; [|split; [|split; [|split; [|split; [|split]]]]].
    + intros e H. rewrite H. reflexivity.
    + intros e G. unfold web_request. rewrite G. reflexivity.
    + intros response e G J. unfold web_request. rewrite G. simpl.
      destruct (Z.eqb (status_code response) 200); [|reflexivity].
      rewrite J. reflexivity.
    + intros response data G J N. unfold web_request. rewrite G. simpl.
      destruct (Z.eqb (status_code response) 200); [|reflexivity].
      rewrite J. simpl.
      destruct data; try reflexivity. exfalso. apply (N d). reflexivity.
    + intros response data related e G J P S. unfold web_request.
      rewrite G. simpl.
      destruct (Z.eqb (status_code response) 200); [|reflexivity].
      rewrite J. simpl. rewrite P. simpl. rewrite S. reflexivity.
    + intros data topics kept e H L. rewrite H, L. simpl.
      split; [reflexivity|].
      destruct (web_topics_failure_prefix _ _ _ _ _ L)
        as (good & bad & rest & Ht & Hg & _ & Hb).
      exists good, bad, rest. auto.
    + intros data topics kept a e H L A T W. rewrite H, L.
      unfold web_abstract. rewrite A, T, W. reflexivity.
  - destruct client as [c|]; simpl.
    + eexists. split; [reflexivity|]. split; [discriminate|].
      intros c' e H S. inversion H; subst.
      unfold twitter_try. rewrite S. reflexivity.
    + exists []. split; [reflexivity|]. split; [reflexivity|discriminate].
Qed.

Lemma fetcher_failure_is_contained_witness :
  aggregate_web_content Example.get_down Example.clock "q" 5 = Ok [] /\
  aggregate_twitter_content (Some Example.twitter_down) Example.clock "q" 5
    = Ok [] /\
  exists it,
    aggregate_web_content (Example.get_ok Fixture.payload_null_heading)
      Example.clock "q" 5 = Ok [it] /\
    content it = "kept topic".
Proof.
  destruct (fetcher_failure_is_contained Example.get_down Example.clock
              (Some Example.twitter_down) "q" 5)
    as [(its & Hw & Hreq & _) (its' & Ht & _ & Hsearch)].
  rewrite (Hreq (NetworkError "connection refused") eq_refl) in Hw.
  rewrite (Hsearch Example.twitter_down (ProviderError "401 Unauthorized")
             eq_refl eq_refl) in Ht.
  split; [exact Hw|]. split; [exact Ht|].
  destruct (fetcher_failure_is_contained
              (Example.get_ok Fixture.payload_null_heading) Example.clock
              None "q" 5)
    as [(kept & Hk & _ & _ & _ & _ & _ & _ & Habstract) _].
  rewrite (Habstract Fixture.payload_null_heading
             [Example.topic "kept topic" (JStr "https://example.com/kept")]
             [mkContentItem "Kept" "kept topic" "web"
                (Some "https://example.com/kept") (Naive 1000)
                [("search_engine", JStr "duckduckgo")]]
             (JStr "An abstract")
             (ValidationError "title: input should be a valid string")
             eq_refl eq_refl eq_refl eq_refl eq_refl) in Hk.
  eexists. split; [exact Hk | reflexivity].
Defined.

(** C4 as stated fails: the second related topic has a null FirstURL, the
    fetch ends on an AttributeError, and the item of the first topic is
    returned. *)
Lemma fetcher_failure_counterexample :
  snd (web_try (Example.get_ok Example.payload_null_url) Example.clock "q" 10)
    = Some (AttributeError "object has no attribute 'split'") /\
  exists it,
    aggregate_web_content (Example.get_ok Example.payload_null_url)
      Example.clock "q" 10 = Ok [it] /\
    content it = "first topic".
Proof.
  split; [reflexivity|].
  eexists. split; [vm_compute; reflexivity | reflexivity].
Qed.

(* ------------------------------------------------------------------ *)
(** ** The summary *)

Lemma generate_summary_none (client : option LLMClient)
  (its : list ContentItem) (q : string) :
  (its = [] \/ client = None \/
   exists llm e, client = Some llm /\
                 ainvoke llm (build_prompt (slice_to 10 its) q) = Raise e) ->
  fst (generate_summary client its q) = None.
Proof.
  intros [-> | [-> | (llm & e & -> & H)]].
  - destruct client; reflexivity.
  - reflexivity.
  - destruct its as [|x its]; [reflexivity|].
    unfold generate_summary. rewrite H. reflexivity.
Qed.

Lemma generate_summary_no_items (client : option LLMClient) (q : string) :
  generate_summary client [] q = (None, []).
Proof. destruct client; reflexivity. Qed.

(** C5. The summary of a returned result is absent when the request does
    not ask for one, when there are no items, when no language-model
    client is configured and when the language-model call fails; without
    a summary request, and without items, the language model is not
    called. *)
Theorem summary_absent_unless_generated (st : State) (fx : Fetchers)
  (tm : Timing) (req : AggregationRequest) (r : AggregationResult)
  (calls : list event) :
  aggregate_content st fx tm req = (Http200 r, calls) ->
  ((summarize req = false \/ items r = [] \/ openai_client st = None \/
    (exists llm e,
       openai_client st = Some llm /\
       ainvoke llm (build_prompt (slice_to 10 (items r)) (query req)) = Raise e)) ->
   summary r = None) /\
  (summarize req = false -> calls = []) /\
  (items r = [] -> calls = []).
Proof.
  intros H. apply aggregate_ok_inv in H.
  destruct H as (all_items & _ & -> & ->). simpl.
  unfold summary_step. repeat split.
  - intros [Hs | Hrest].
    + rewrite Hs. reflexivity.
    + destruct (summarize req && nonempty all_items); [|reflexivity].
      apply generate_summary_none. exact Hrest.
  - intros Hs. rewrite Hs. reflexivity.
  - intros ->. rewrite andb_false_r. reflexivity.
Qed.

Lemma summary_absent_unless_generated_witness :
  let st := Example.state Example.dated_tweets Example.llm_down in
  let fx := Example.fetchers_web_raises st in
  let req := Example.request ["twitter"] true in
  exists r prompt,
    aggregate_content st fx Example.timing req = (Http200 r, [LLMInvoke prompt]) /\
    List.length (items r) = 2%nat /\
    summary r = None.
Proof.
  intros st fx req.
  eexists. eexists.
  split; [vm_compute; reflexivity|].
  split; [reflexivity|].
  eapply (summary_absent_unless_generated st fx Example.timing req).
  - vm_compute; reflexivity.
  - right; right; right.
    exists Example.llm_down, (ProviderError "rate limit exceeded").
    split; reflexivity.
Defined.

(* ------------------------------------------------------------------ *)
(** ** No source available *)

Lemma mem_In (tag : string) (l : list string) :
  mem tag l = true <-> In tag l.
Proof.
  unfold mem. rewrite existsb_exists. split.
  - intros (x & Hx & E). apply String.eqb_eq in E. subst. exact Hx.
  - intros H. exists tag. split; [exact H | apply String.eqb_refl].
Qed.

(** C6. When every requested tag is one without an available fetcher
    (not the web tag, and the Twitter tag only with the Twitter client
    missing), the request answers 200 with [sources_used] empty, [items]
    empty and [total_items] 0. *)
Theorem no_available_source (st : State) (fx : Fetchers) (tm : Timing)
  (req : AggregationRequest) :
  (forall tag, In tag (sources req) ->
     tag <> "web" /\ (tag = "twitter" -> twitter_client st = None)) ->
  exists r,
    aggregate_content st fx tm req = (Http200 r, []) /\
    sources_used r = [] /\
    items r = [] /\
    total_items r = 0 /\
    summary r = None.
Proof.
  intros H.
  assert (Hw : mem "web" (sources req) = false).
  { destruct (mem "web" (sources req)) eqn:E; [|reflexivity].
    apply mem_In in E. destruct (H _ E) as [N _]. contradiction. }
  assert (Ht : mem "twitter" (sources req) && is_some (twitter_client st) = false).
  { destruct (mem "twitter" (sources req)) eqn:E; [|reflexivity].
    apply mem_In in E. destruct (H _ E) as [_ N]. rewrite (N eq_refl). reflexivity. }
  unfold aggregate_content, aggregate_try, schedule, summary_step.
  rewrite Hw, Ht. simpl. rewrite andb_false_r.
  eexists. split; [reflexivity|]. simpl. repeat split; reflexivity.
Qed.

Lemma no_available_source_witness :
  let st := mkState None (Some Example.llm) [] in
  let req := Example.request ["twitter"; "reddit"] true in
  exists r,
    aggregate_content st (Example.fetchers st) Example.timing req = (Http200 r, []) /\
    sources_used r = [] /\
    items r = [] /\
    total_items r = 0 /\
    summary r = None.
Proof.
  intros st req.
  apply (no_available_source st (Example.fetchers st) Example.timing req).
  intros tag Hin. simpl in Hin.
  destruct Hin as [<-|[<-|[]]]; split;
    solve [discriminate | reflexivity | intros; reflexivity].
Defined.

(* ------------------------------------------------------------------ *)
(** ** Validation at the service boundary *)

(** C7, amended. A body without [query], or with a [query] that is null,
    an array or an object, is answered 422 and the orchestrator is not
    entered. Text of any length passes, the empty text included. *)
Theorem missing_query_is_rejected (st : State) (fx : Fetchers) (tm : Timing)
  (d : list (string * json)) :
  (assoc "query" d = None \/
   assoc "query" d = Some JNull \/
   (exists l, assoc "query" d = Some (JList l)) \/
   (exists m, assoc "query" d = Some (JDict m))) ->
  post_aggregate st fx tm (JDict d) = (Http422, []).
Proof.
  intros H. unfold post_aggregate, Schema.validate_request.
  destruct H as [H | [H | [[l H] | [m H]]]]; rewrite H; reflexivity.
Qed.

Lemma missing_query_is_rejected_witness :
  post_aggregate initial_state (Example.fetchers initial_state) Example.timing
    (JDict [("sources", JList [JStr "web"]); ("max_results", JNum 5)])
  = (Http422, []).
Proof.
  apply (missing_query_is_rejected initial_state
           (Example.fetchers initial_state) Example.timing).
  left; reflexivity.
Defined.

(** C7 as stated fails: an empty [query] is accepted and the
    orchestrator runs on it. *)
Lemma empty_query_counterexample :
  exists r calls,
    post_aggregate initial_state (Example.fetchers initial_state) Example.timing
      (JDict [("query", JStr "")])
    = (Http200 r,
       Orchestrate (mkAggregationRequest "" ["web"; "twitter"] 10 true) :: calls).
Proof.
  eexists. eexists. vm_compute. reflexivity.
Qed.

(** C8, amended. An accepted request has the [max_results] of its body,
    whatever its sign, and 10 when the body has none; the orchestrator is
    entered with it. *)
Theorem max_results_is_unconstrained (st : State) (fx : Fetchers)
  (tm : Timing) (d : list (string * json)) (req : AggregationRequest) :
  Schema.validate_request (JDict d) = Ok req ->
  (forall n, assoc "max_results" d = Some (JNum n) -> max_results req = n) /\
  (assoc "max_results" d = None -> max_results req = 10) /\
  exists reply calls,
    post_aggregate st fx tm (JDict d) = (reply, Orchestrate req :: calls).
Proof.
  intros H. assert (V := H). unfold Schema.validate_request in V.
  destruct (Schema.required _ _ _) as [q|]; simpl in V; [|discriminate].
  destruct (Schema.with_default _ (Schema.as_list_str _) _) as [s|];
    simpl in V; [|discriminate].
  destruct (Schema.with_default 10 _ _) as [m|] eqn:M; simpl in V; [|discriminate].
  destruct (Schema.with_default true _ _); simpl in V; [|discriminate].
  inversion V; subst; clear V. simpl.
  split; [|split].
  - intros n E. rewrite E in M. simpl in M. inversion M; reflexivity.
  - intros E. rewrite E in M. simpl in M. inversion M; reflexivity.
  - unfold post_aggregate. rewrite H.
    destruct (aggregate_content st fx tm _) as [reply calls]. eauto.
Qed.

Lemma max_results_is_unconstrained_witness :
  let body := [("query", JStr "rust"); ("max_results", JNum (-3))] in
  let req := mkAggregationRequest "rust" ["web"; "twitter"] (-3) true in
  Schema.validate_request (JDict body) = Ok req /\
  max_results req = -3 /\
  exists reply calls,
    post_aggregate initial_state (Example.fetchers initial_state)
      Example.timing (JDict body) = (reply, Orchestrate req :: calls).
Proof.
  intros body req.
  split; [reflexivity|].
  destruct (max_results_is_unconstrained initial_state
              (Example.fetchers initial_state) Example.timing body req
              eq_refl) as (Hn & _ & Hrun).
  split; [exact (Hn (-3) eq_refl) | exact Hrun].
Defined.

(** C8 as stated fails: a body with [max_results] 0 is accepted and
    reaches the orchestrator. *)
Lemma zero_max_results_counterexample :
  exists r calls,
    post_aggregate initial_state (Example.fetchers initial_state) Example.timing
      (JDict [("query", JStr "rust"); ("max_results", JNum 0)])
    = (Http200 r,
       Orchestrate (mkAggregationRequest "rust" ["web"; "twitter"] 0 true) :: calls).
Proof.
  eexists. eexists. vm_compute. reflexivity.
Qed.

(* ------------------------------------------------------------------ *)
(** ** The task list *)

Lemma initialize_services_tasks (env : Env) (st : State) :
  aggregation_tasks (initialize_services env st) = aggregation_tasks st.
Proof.
  unfold initialize_services, init_twitter, init_openai.
  destruct (env_value (TWITTER_BEARER_TOKEN env)) as [token|].
  - destruct (new_twitter_client env token) as [c|]; simpl; [|reflexivity].
    destruct (env_value (OPENAI_API_KEY env)) as [key|]; [|reflexivity].
    destruct (new_openai_client env key); reflexivity.
  - destruct (env_value (OPENAI_API_KEY env)) as [key|]; [|reflexivity].
    destruct (new_openai_client env key); reflexivity.
Qed.

Lemma step_tasks (st : State) (o : operation) :
  aggregation_tasks (fst (step st o)) = aggregation_tasks st.
Proof.
  destruct o; simpl; try reflexivity.
  - apply initialize_services_tasks.
  - destruct (post_aggregate st fx tm body); reflexivity.
Qed.

Lemma reachable_run (ops : list operation) (st : State) :
  reachable st -> reachable (run st ops).
Proof.
  revert st. induction ops as [|o ops IH]; simpl; intros st R.
  - exact R.
  - apply IH. apply reachable_step. exact R.
Qed.

(** C10. No operation changes [aggregation_tasks], [aggregate_content]
    included, and in every reachable state GET /status reports
    [active_tasks] 0. *)
Theorem aggregation_tasks_stay_empty :
  (forall st o, aggregation_tasks (fst (step st o)) = aggregation_tasks st) /\
  (forall st now,
     reachable st ->
     aggregation_tasks st = [] /\ active_tasks (get_status st now) = 0).
Proof.
  split; [exact step_tasks|].
  intros st now R.
  assert (E : aggregation_tasks st = []).
  { induction R as [|st o R IH]; [reflexivity|].
    rewrite step_tasks. exact IH. }
  split; [exact E|]. simpl. rewrite E. reflexivity.
Qed.

Lemma aggregation_tasks_stay_empty_witness :
  let st :=
    run initial_state
      [Startup Example.env;
       PostAggregate (Example.fetchers_web_raises
                        (Example.state Example.dated_tweets Example.llm))
                     Example.timing (JDict [("query", JStr "rust")]);
       GetStatus 7] in
  is_some (twitter_client st) = true /\
  active_tasks (get_status st 8) = 0.
Proof.
  intros st. split; [reflexivity|].
  apply (proj2 aggregation_tasks_stay_empty st 8).
  apply reachable_run. apply reachable_initial.
Defined.

(* ------------------------------------------------------------------ *)
(** ** More on the sort and on the answer of the handler *)

Lemma dt_eqb_eq (a b : datetime) : dt_eqb a b = true <-> a = b.
Proof.
  destruct a, b; simpl; split; intros H; try discriminate;
    try (apply Z.eqb_eq in H; congruence);
    inversion H; subst; apply Z.eqb_refl.
Qed.

Lemma stamped_none (t : datetime) (l : list ContentItem) :
  Forall (fun z => dt_eqb (timestamp z) t = false) l -> stamped t l = [].
Proof.
  induction 1 as [|z l Hz F IH]; simpl; [reflexivity|].
  rewrite Hz. exact IH.
Qed.

Lemma stamped_insert (t : datetime) (p : ContentItem)
  (run r : list ContentItem) :
  StronglySorted le_ts run ->
  Sort.insert p run = Ok r ->
  stamped t r =
    (stamped t run ++ (if dt_eqb (timestamp p) t then [p] else []))%list.
Proof.
  revert r. induction run as [|y run IH]; simpl; intros r S H.
  - inversion H; subst. simpl. destruct (dt_eqb (timestamp p) t); reflexivity.
  - destruct (dt_lt (timestamp p) (timestamp y)) as [c|] eqn:E;
      simpl in H; [|discriminate].
    apply dt_lt_ok in E. destruct E as [K C].
    inversion S as [|? ? S' F]; subst.
    destruct (Z.ltb_spec (instant (timestamp p)) (instant (timestamp y))) as [L|L].
    + inversion H; subst. simpl.
      destruct (dt_eqb (timestamp p) t) eqn:Ep.
      * apply dt_eqb_eq in Ep. subst t.
        assert (N : Forall (fun z => dt_eqb (timestamp z) (timestamp p) = false)
                           (y :: run)).
        { constructor.
          - destruct (dt_eqb (timestamp y) (timestamp p)) eqn:Ey; [|reflexivity].
            apply dt_eqb_eq in Ey. rewrite Ey in L. lia.
          - eapply Forall_impl; [|exact F]. intros z [_ Hz].
            destruct (dt_eqb (timestamp z) (timestamp p)) eqn:Ez; [|reflexivity].
            apply dt_eqb_eq in Ez. rewrite Ez in Hz. lia. }
        pose proof (stamped_none _ _ N) as Hn. simpl in Hn. rewrite Hn.
        reflexivity.
      * rewrite app_nil_r. reflexivity.
    + destruct (Sort.insert p run) as [r'|] eqn:E'; simpl in H; [|discriminate].
      inversion H; subst. simpl.
      rewrite (IH r' S' eq_refl).
      destruct (dt_eqb (timestamp y) t); reflexivity.
Qed.

Lemma stamped_sort_onto (t : datetime) (l run r : list ContentItem) :
  StronglySorted le_ts run ->
  Sort.sort_onto run l = Ok r ->
  stamped t r = (stamped t run ++ stamped t l)%list.
Proof.
  revert run r. induction l as [|x l IH]; simpl; intros run r S H.
  - inversion H; subst. symmetry; apply app_nil_r.
  - destruct (Sort.insert x run) as [run'|] eqn:E; simpl in H; [|discriminate].
    destruct (insert_sorted _ _ _ E S) as [S' _].
    rewrite (IH _ _ S' H), (stamped_insert t _ _ _ S E), <- app_assoc.
    destruct (dt_eqb (timestamp x) t); reflexivity.
Qed.

Lemma stamped_sort_desc (t : datetime) (l r : list ContentItem) :
  Sort.sort_desc l = Ok r -> stamped t r = stamped t l.
Proof.
  unfold Sort.sort_desc, Sort.sort_asc. intros H.
  destruct (Sort.sort_onto [] (rev l)) as [a|] eqn:E; simpl in H; [|discriminate].
  inversion H; subst.
  pose proof (stamped_sort_onto t _ _ _ (SSorted_nil _) E) as Ha.
  simpl in Ha. unfold stamped in *.
  rewrite filter_rev, Ha, filter_rev. apply rev_involutive.
Qed.

(** X1. The sort of the handler is stable: in a returned result the items
    of one timestamp stand in the order in which the fetchers returned
    them. *)
Theorem equal_timestamps_keep_order (st : State) (fx : Fetchers)
  (tm : Timing) (req : AggregationRequest) (r : AggregationResult)
  (calls : list event) (t : datetime) :
  aggregate_content st fx tm req = (Http200 r, calls) ->
  stamped t (items r) = stamped t (returned_items (schedule st fx req)).
Proof.
  intros H. apply aggregate_ok_inv in H.
  destruct H as (all_items & Hs & -> & _). simpl.
  apply (stamped_sort_desc t _ _ Hs).
Qed.

Lemma equal_timestamps_keep_order_witness :
  let st := Example.state Fixture.tied_tweets Example.llm in
  let fx := Example.fetchers_web_raises st in
  let req := Example.request ["twitter"] false in
  exists r calls,
    aggregate_content st fx Example.timing req = (Http200 r, calls) /\
    map content (items r) = ["at 70"; "first at 50"; "second at 50"] /\
    map content (stamped (Aware 50) (returned_items (schedule st fx req)))
      = ["first at 50"; "second at 50"] /\
    stamped (Aware 50) (items r)
      = stamped (Aware 50) (returned_items (schedule st fx req)).
Proof.
  intros st fx req. eexists. eexists.
  split; [vm_compute; reflexivity|].
  split; [reflexivity|].
  split; [reflexivity|].
  eapply (equal_timestamps_keep_order st fx Example.timing req).
  vm_compute; reflexivity.
Defined.

Lemma insert_raises (p : ContentItem) (run : list ContentItem) (e : exn) :
  Sort.insert p run = Raise e ->
  e = TypeError "can't compare offset-naive and offset-aware datetimes".
Proof.
  induction run as [|y run IH]; simpl; intros H; [discriminate|].
  destruct (dt_lt (timestamp p) (timestamp y)) as [c|e'] eqn:E; simpl in H.
  - destruct c; [discriminate|].
    destruct (Sort.insert p run) as [r|e'']; simpl in H; [discriminate|].
    inversion H; subst. apply IH. reflexivity.
  - inversion H; subst.
    destruct (timestamp p), (timestamp y); simpl in E;
      try discriminate; inversion E; reflexivity.
Qed.

Lemma sort_desc_raises (l : list ContentItem) (e : exn) :
  Sort.sort_desc l = Raise e ->
  e = TypeError "can't compare offset-naive and offset-aware datetimes".
Proof.
  unfold Sort.sort_desc, Sort.sort_asc.
  generalize (rev l) as l'. intros l'.
  generalize (@nil ContentItem) as run.
  induction l' as [|x l' IH]; simpl; intros run H; [discriminate|].
  destruct (Sort.insert x run) as [run'|e'] eqn:E; simpl in H.
  - apply (IH run'). exact H.
  - inversion H; subst. apply (insert_raises _ _ _ E).
Qed.

(** X2. The handler answers 200 exactly when the timestamps of the
    collected items are all naive or all aware; otherwise it answers 500
    with the detail of the TypeError of the sort, and calls no language
    model. *)
Theorem answer_is_200_or_sort_error (st : State) (fx : Fetchers)
  (tm : Timing) (req : AggregationRequest) :
  (comparable (returned_items (schedule st fx req)) /\
   exists r calls, aggregate_content st fx tm req = (Http200 r, calls)) \/
  (~ comparable (returned_items (schedule st fx req)) /\
   aggregate_content st fx tm req =
     (Http500 "can't compare offset-naive and offset-aware datetimes", [])).
Proof.
  destruct (Sort.sort_desc (returned_items (schedule st fx req)))
    as [all_items|e] eqn:E.
  - left. split; [apply (sort_desc_comparable _ _ E)|].
    rewrite (aggregate_ok_intro _ _ tm _ _ E). eauto.
  - right. split.
    + intros C. destruct (sort_desc_total _ C) as [r Hr]. congruence.
    + unfold aggregate_content, aggregate_try.
      rewrite collect_returned. simpl. rewrite E.
      rewrite (sort_desc_raises _ _ E). reflexivity.
Qed.

(** X3. A returned result holds the items that the fetchers returned,
    each as often as it was returned and no other, and [total_items]
    counts them. *)
Theorem items_are_the_returned_items (st : State) (fx : Fetchers)
  (tm : Timing) (req : AggregationRequest) (r : AggregationResult)
  (calls : list event) :
  aggregate_content st fx tm req = (Http200 r, calls) ->
  Permutation (returned_items (schedule st fx req)) (items r) /\
  total_items r =
    Z.of_nat (List.length (returned_items (schedule st fx req))).
Proof.
  intros H. apply aggregate_ok_inv in H.
  destruct H as (all_items & Hs & -> & _). simpl.
  destruct (sort_desc_sorted _ _ Hs) as [_ P].
  split; [exact P|].
  rewrite (Permutation_length P). reflexivity.
Qed.

Lemma items_are_the_returned_items_witness :
  let st := mkState None None [] in
  let fx := Example.fetchers st in
  let req := Example.request ["web"] false in
  exists r calls,
    aggregate_content st fx Example.timing req = (Http200 r, calls) /\
    map content (returned_items (schedule st fx req))
      = ["Test content from web"; "Test abstract"] /\
    Permutation (returned_items (schedule st fx req)) (items r) /\
    total_items r = 2.
Proof.
  intros st fx req. eexists. eexists.
  split; [vm_compute; reflexivity|].
  split; [reflexivity|].
  eapply (items_are_the_returned_items st fx Example.timing req).
  vm_compute; reflexivity.
Defined.

(* ------------------------------------------------------------------ *)
(** ** More on the web fetcher *)

Lemma web_stamped_snoc (now : Clock) (l : list ContentItem) (it : ContentItem) :
  web_stamped now l ->
  source it = "web" ->
  assoc "search_engine" (metadata it) = Some (JStr "duckduckgo") ->
  timestamp it = Naive (now (List.length l)) ->
  web_stamped now (l ++ [it]).
Proof.
  intros [F T] Hs Hm Ht. split.
  - apply Forall_app. split; [exact F|]. repeat constructor; assumption.
  - rewrite map_app, length_app. simpl.
    rewrite Nat.add_1_r, seq_S, map_app, T, Ht. reflexivity.
Qed.

Ltac split_binds H :=
  repeat match type of H with
         | context [match ?x with Ok _ => _ | Raise _ => _ end] =>
             destruct x; try discriminate H
         end.

Lemma web_topic_item_fields (d : list (string * json)) (t : Z)
  (it : ContentItem) :
  web_topic_item d t = Ok it ->
  source it = "web" /\
  assoc "search_engine" (metadata it) = Some (JStr "duckduckgo") /\
  timestamp it = Naive t.
Proof.
  unfold web_topic_item, Py.bind. intros H. split_binds H.
  inversion H; subst. simpl. auto.
Qed.

Lemma web_abstract_item_fields (data : json) (q : string) (t : Z)
  (it : ContentItem) :
  web_abstract_item data q t = Ok it ->
  source it = "web" /\
  assoc "search_engine" (metadata it) = Some (JStr "duckduckgo") /\
  timestamp it = Naive t.
Proof.
  unfold web_abstract_item, Py.bind. intros H. split_binds H.
  inversion H; subst. simpl. auto.
Qed.

Lemma web_topics_stamped (now : Clock) (topics : list json)
  (acc : list ContentItem) :
  web_stamped now acc -> web_stamped now (fst (web_topics now topics acc)).
Proof.
  revert acc. induction topics as [|t topics IH]; simpl; intros acc W.
  - exact W.
  - destruct t; try (apply IH; exact W).
    destruct (has_key "Text" d); [|apply IH; exact W].
    destruct (web_topic_item d _) as [it|e] eqn:E; simpl; [|exact W].
    apply web_topic_item_fields in E. destruct E as (Hs & Hm & Ht).
    apply IH. apply web_stamped_snoc; assumption.
Qed.

Lemma web_try_stamped (get : HttpGet) (now : Clock) (q : string) (max : Z) :
  web_stamped now (fst (web_try get now q max)).
Proof.
  assert (W0 : web_stamped now []) by (split; [constructor | reflexivity]).
  unfold web_try.
  destruct (web_request get q max) as [[[data topics]|]|e]; simpl; try exact W0.
  pose proof (web_topics_stamped now topics [] W0) as W.
  destruct (web_topics now topics []) as [its [e|]]; simpl in *; [exact W|].
  unfold web_abstract.
  destruct (py_get data "Abstract" JNull) as [a|]; simpl; [|exact W].
  destruct (truthy a); simpl; [|exact W].
  destruct (web_abstract_item data q _) as [it|] eqn:E; simpl; [|exact W].
  apply web_abstract_item_fields in E. destruct E as (Hs & Hm & Ht).
  apply web_stamped_snoc; assumption.
Qed.

(** X4. Every item of the web fetcher has the source tag "web" and the
    search engine "duckduckgo" in its metadata, and the k-th item is
    stamped with the k-th reading of [datetime.now()], a naive
    datetime. *)
Theorem web_items_are_web_stamped (get : HttpGet) (now : Clock)
  (q : string) (max : Z) (its : list ContentItem) :
  aggregate_web_content get now q max = Ok its ->
  Forall (fun it => source it = "web" /\
                    assoc "search_engine" (metadata it)
                      = Some (JStr "duckduckgo")) its /\
  map timestamp its = map (fun k => Naive (now k)) (seq 0 (List.length its)).
Proof.
  intros H. inversion H; subst. apply web_try_stamped.
Qed.

Lemma web_items_are_web_stamped_witness :
  exists its,
    aggregate_web_content (Example.get_ok Example.payload) Example.clock
      "test query" 5 = Ok its /\
    map source its = ["web"; "web"] /\
    map timestamp its = [Naive 1000; Naive 1001].
Proof.
  eexists. split; [vm_compute; reflexivity|].
  split; [reflexivity|].
  apply (web_items_are_web_stamped (Example.get_ok Example.payload)
           Example.clock "test query" 5 _ eq_refl).
Defined.

Lemma web_stamped_comparable (now : Clock) (l : list ContentItem) :
  web_stamped now l -> comparable l.
Proof.
  intros [_ T] a b Ha Hb.
  assert (N : forall x, In x l -> is_aware (timestamp x) = false).
  { intros x Hx. apply (in_map timestamp) in Hx. rewrite T in Hx.
    apply in_map_iff in Hx. destruct Hx as (k & <- & _). reflexivity. }
  rewrite (N a Ha), (N b Hb). reflexivity.
Qed.

(** X5. With the fetchers of the module, a request that names the web
    source while the Twitter fetcher is not scheduled always answers 200,
    whatever the web provider does: [sources_used] is ["web"] and every
    item has the source tag "web". *)
Theorem web_only_request_answers_200 (st : State) (get : HttpGet)
  (web_now twitter_now : Clock) (tm : Timing) (req : AggregationRequest) :
  In "web" (sources req) ->
  (~ In "twitter" (sources req) \/ twitter_client st = None) ->
  exists r calls,
    aggregate_content st (real_fetchers st get web_now twitter_now) tm req
      = (Http200 r, calls) /\
    sources_used r = ["web"] /\
    Forall (fun it => source it = "web") (items r).
Proof.
  intros Hw Ht.
  apply mem_In in Hw.
  assert (Hn : mem "twitter" (sources req) && is_some (twitter_client st) = false).
  { destruct Ht as [Ht | Ht].
    - destruct (mem "twitter" (sources req)) eqn:E; [|reflexivity].
      apply mem_In in E. contradiction.
    - rewrite Ht. apply andb_false_r. }
  set (fx := real_fetchers st get web_now twitter_now).
  assert (R : returned_items (schedule st fx req)
              = fst (web_try get web_now (query req) (max_results req))).
  { unfold schedule. rewrite Hw, Hn. simpl. apply app_nil_r. }
  pose proof (web_try_stamped get web_now (query req) (max_results req)) as W.
  destruct (sort_desc_total _ (web_stamped_comparable _ _ W)) as [all_items Hs].
  rewrite <- R in Hs.
  rewrite (aggregate_ok_intro _ _ tm _ _ Hs).
  eexists. eexists. split; [reflexivity|]. simpl. split.
  - unfold scheduled_tags. rewrite Hw, Hn. reflexivity.
  - destruct (sort_desc_sorted _ _ Hs) as [_ P].
    rewrite R in P. destruct W as [F _].
    apply (Permutation_Forall P).
    eapply Forall_impl; [|exact F]. intros it [H _]. exact H.
Qed.

Lemma web_only_request_answers_200_witness :
  let st := Example.state Example.dated_tweets Example.llm in
  exists r calls,
    aggregate_content st
      (real_fetchers st (Example.get_ok Example.payload_null_url)
         Example.clock Example.clock)
      Example.timing (Example.request ["reddit"; "web"] true)
    = (Http200 r, calls) /\
    sources_used r = ["web"] /\
    Forall (fun it => source it = "web") (items r).
Proof.
  intros st.
  apply (web_only_request_answers_200 st
           (Example.get_ok Example.payload_null_url)
           Example.clock Example.clock Example.timing
           (Example.request ["reddit"; "web"] true)).
  - right; left; reflexivity.
  - left. simpl. intros [H | [H | []]]; discriminate.
Defined.

(** X6. A response with a status other than 200 gives no item, and its
    body is not looked at. *)
Theorem web_other_status_is_empty (get : HttpGet) (now : Clock)
  (q : string) (max : Z) (response : Response) :
  get (search_url q) = Ok response ->
  status_code response <> 200 ->
  web_try get now q max = ([], None) /\
  aggregate_web_content get now q max = Ok [].
Proof.
  intros G S.
  assert (T : web_try get now q max = ([], None)).
  { unfold web_try, web_request. rewrite G. simpl.
    destruct (Z.eqb_spec (status_code response) 200); [contradiction|].
    reflexivity. }
  split; [exact T|]. unfold aggregate_web_content. rewrite T. reflexivity.
Qed.

Lemma web_other_status_is_empty_witness :
  let get : HttpGet :=
    fun _ => Ok (mkResponse 503 (Raise (JSONDecodeError "not JSON"))) in
  web_try get Example.clock "q" 5 = ([], None) /\
  aggregate_web_content get Example.clock "q" 5 = Ok [].
Proof.
  intros get.
  apply (web_other_status_is_empty get Example.clock "q" 5
           (mkResponse 503 (Raise (JSONDecodeError "not JSON")))).
  - reflexivity.
  - discriminate.
Defined.

(** X7. Related topics that are not objects, or that have no "Text" key,
    are passed over: the loop gives what it gives on the topics that
    pass the test of line 145. *)
Theorem untexted_topics_are_skipped (now : Clock) (topics : list json)
  (acc : list ContentItem) :
  web_topics now topics acc = web_topics now (filter is_text_topic topics) acc.
Proof.
  revert acc. induction topics as [|t topics IH]; simpl; intros acc.
  - reflexivity.
  - destruct t; simpl; try apply IH.
    destruct (has_key "Text" d) eqn:K; simpl; [|apply IH].
    rewrite K. destruct (web_topic_item d _); [apply IH | reflexivity].
Qed.

(** X8. A related topic with text and without a "FirstURL" key gives an
    item with an empty title and no url. *)
Theorem topic_without_url (d : list (string * json)) (text : string) (t : Z) :
  assoc "FirstURL" d = None ->
  assoc "Text" d = Some (JStr text) ->
  web_topic_item d t =
    Ok (mkContentItem "" text "web" None (Naive t)
          [("search_engine", JStr "duckduckgo")]).
Proof.
  intros U T. unfold web_topic_item, py_index. simpl.
  rewrite U, T. reflexivity.
Qed.

Lemma topic_without_url_witness :
  web_topic_item [("Text", JStr "only text")] 7 =
    Ok (mkContentItem "" "only text" "web" None (Naive 7)
          [("search_engine", JStr "duckduckgo")]).
Proof.
  apply (topic_without_url [("Text", JStr "only text")] "only text" 7);
    reflexivity.
Defined.

Lemma contains_app (c : ascii) (a b : string) :
  contains c (a ++ b) = contains c a || contains c b.
Proof.
  induction a as [|x a IH]; simpl; [reflexivity|].
  rewrite IH. apply orb_assoc.
Qed.

Lemma split_last_from_no_sep (sep : ascii) (s acc : string) :
  contains sep acc = false ->
  contains sep (split_last_from sep s acc) = false.
Proof.
  revert acc. induction s as [|x s IH]; simpl; intros acc H.
  - exact H.
  - destruct (Ascii.eqb x sep) eqn:E.
    + apply IH. reflexivity.
    + apply IH. rewrite contains_app, H. simpl. rewrite E. reflexivity.
Qed.

Lemma replace_char_gone (a b : ascii) (s : string) :
  Ascii.eqb b a = false -> contains a (replace_char a b s) = false.
Proof.
  intros N. induction s as [|x s IH]; simpl; [reflexivity|].
  rewrite IH. destruct (Ascii.eqb x a) eqn:E; [rewrite N | rewrite E]; reflexivity.
Qed.

Lemma replace_char_keeps (c a b : ascii) (s : string) :
  Ascii.eqb b c = false ->
  contains c s = false -> contains c (replace_char a b s) = false.
Proof.
  intros N. induction s as [|x s IH]; simpl; [reflexivity|].
  intros H. apply orb_false_iff in H. destruct H as [Hx Hs].
  rewrite (IH Hs). destruct (Ascii.eqb x a); [rewrite N | rewrite Hx]; reflexivity.
Qed.

Lemma title_case_keeps_slash (x : ascii) :
  Ascii.eqb (to_upper x) "/" = Ascii.eqb x "/" /\
  Ascii.eqb (to_lower x) "/" = Ascii.eqb x "/".
Proof.
  destruct x as [[] [] [] [] [] [] [] []]; split; reflexivity.
Qed.

Lemma title_case_keeps_dash (x : ascii) :
  Ascii.eqb (to_upper x) "-" = Ascii.eqb x "-" /\
  Ascii.eqb (to_lower x) "-" = Ascii.eqb x "-".
Proof.
  destruct x as [[] [] [] [] [] [] [] []]; split; reflexivity.
Qed.

Lemma title_from_contains (c : ascii) (prev : bool) (s : string) :
  (forall x, Ascii.eqb (to_upper x) c = Ascii.eqb x c /\
             Ascii.eqb (to_lower x) c = Ascii.eqb x c) ->
  contains c (title_from prev s) = contains c s.
Proof.
  intros K. revert prev. induction s as [|x s IH]; simpl; intros prev.
  - reflexivity.
  - rewrite IH. destruct (K x) as [U L].
    destruct prev; [rewrite L | rewrite U]; reflexivity.
Qed.

(** X9. For a related topic whose FirstURL, when it has one, is ASCII
    text, the title of the item holds neither a slash nor a dash. *)
Theorem topic_title_has_no_slash_or_dash (d : list (string * json)) (t : Z)
  (it : ContentItem) :
  (forall u, assoc "FirstURL" d = Some (JStr u) -> is_ascii u = true) ->
  web_topic_item d t = Ok it ->
  contains "/" (title it) = false /\ contains "-" (title it) = false.
Proof.
  intros _. unfold web_topic_item, Py.bind. intros H. split_binds H.
  inversion H; subst; clear H. simpl. unfold str_title. split.
  - rewrite (title_from_contains _ _ _ title_case_keeps_slash).
    apply replace_char_keeps; [reflexivity|].
    apply split_last_from_no_sep. reflexivity.
  - rewrite (title_from_contains _ _ _ title_case_keeps_dash).
    apply replace_char_gone. reflexivity.
Qed.

Lemma topic_title_has_no_slash_or_dash_witness :
  exists it,
    web_topic_item
      [("Text", JStr "two"); ("FirstURL", JStr "https://example.com/c/two-words")]
      7 = Ok it /\
    title it = "Two Words" /\
    contains "/" (title it) = false /\ contains "-" (title it) = false.
Proof.
  eexists. split; [vm_compute; reflexivity|].
  split; [reflexivity|].
  apply (topic_title_has_no_slash_or_dash
           [("Text", JStr "two");
            ("FirstURL", JStr "https://example.com/c/two-words")] 7).
  - intros u E. inversion E. reflexivity.
  - reflexivity.
Defined.

Lemma web_fetcher_bound_witness :
  exists its,
    aggregate_web_content (Example.get_ok Fixture.payload_grouped)
      Example.clock "q" 1 = Ok its /\
    Z.of_nat (List.length its) <= 1 + 1.
Proof.
  eexists. split; [vm_compute; reflexivity|].
  apply (web_fetcher_bound (Example.get_ok Fixture.payload_grouped)
           Example.clock "q" 1); [lia | vm_compute; reflexivity].
Defined.

(* ------------------------------------------------------------------ *)
(** ** More on the Twitter fetcher *)

Lemma twitter_items_of_tweets (now : Clock) (k : nat) (data : list Tweet) :
  Forall2 item_of_tweet data (twitter_items now k data).
Proof.
  revert k. induction data as [|tw data IH]; simpl; intros k.
  - constructor.
  - destruct (created_at tw) as [ts|] eqn:C.
    + constructor; [|apply IH].
      unfold item_of_tweet. simpl. rewrite C.
      repeat split; try reflexivity; [intros ts' E; congruence | discriminate].
    + constructor; [|apply IH].
      unfold item_of_tweet. simpl. rewrite C.
      repeat split; try reflexivity. discriminate.
Qed.

(** X11. When the search returns tweets, the Twitter fetcher returns one
    item for each tweet, in the order of the tweets: its content is the
    text of the tweet, its source tag "twitter", its url the status url
    of the tweet, and its timestamp [created_at] when the tweet has one
    and a naive reading of the clock otherwise. *)
Theorem twitter_items_follow_tweets (c : TwitterClient) (now : Clock)
  (q : string) (max : Z) (data : list Tweet) :
  search_recent_tweets c q (Z.min max 100) = Ok (Some data) ->
  exists its,
    aggregate_twitter_content (Some c) now q max = Ok its /\
    Forall2 item_of_tweet data its.
Proof.
  intros S. exists (twitter_items now 0 data). split.
  - unfold aggregate_twitter_content, twitter_try. rewrite S. reflexivity.
  - apply twitter_items_of_tweets.
Qed.

Lemma twitter_items_follow_tweets_witness :
  exists its,
    aggregate_twitter_content (Some (Example.twitter Example.half_dated_tweets))
      Example.clock "q" 10 = Ok its /\
    map timestamp its = [Aware 50; Naive 1000] /\
    Forall2 item_of_tweet Example.half_dated_tweets its.
Proof.
  destruct (twitter_items_follow_tweets
              (Example.twitter Example.half_dated_tweets) Example.clock
              "q" 10 Example.half_dated_tweets eq_refl) as (its & H & F).
  exists its. split; [exact H|]. split; [|exact F].
  vm_compute in H. inversion H. reflexivity.
Defined.

(** X12. The Twitter search is never asked for more than a hundred
    tweets: a [max_results] over 100 gives what 100 gives. *)
Theorem twitter_request_is_capped_at_100 (client : option TwitterClient)
  (now : Clock) (q : string) (max : Z) :
  100 <= max ->
  aggregate_twitter_content client now q max =
  aggregate_twitter_content client now q 100.
Proof.
  intros H. destruct client as [c|]; simpl; [|reflexivity].
  unfold twitter_try. rewrite (Z.min_r max 100 H). reflexivity.
Qed.

Lemma twitter_request_is_capped_at_100_witness :
  exists its,
    aggregate_twitter_content
      (Some (Fixture.twitter_capped Fixture.many_tweets)) Example.clock "q" 100
      = Ok its /\
    List.length its = 12%nat /\
    aggregate_twitter_content
      (Some (Fixture.twitter_capped Fixture.many_tweets)) Example.clock "q" 250
      = Ok its.
Proof.
  eexists. split; [vm_compute; reflexivity|].
  split; [reflexivity|].
  rewrite (twitter_request_is_capped_at_100
             (Some (Fixture.twitter_capped Fixture.many_tweets))
             Example.clock "q" 250); [vm_compute; reflexivity | lia].
Defined.

Lemma twitter_fetcher_bound_witness :
  exists its,
    aggregate_twitter_content
      (Some (Fixture.twitter_capped Fixture.many_tweets)) Example.clock "q" 10
      = Ok its /\
    List.length its = 10%nat /\
    Z.of_nat (List.length its) <= 10.
Proof.
  eexists. split; [vm_compute; reflexivity|].
  split; [reflexivity|].
  apply (twitter_fetcher_bound (Fixture.twitter_capped Fixture.many_tweets)
           Example.clock "q" 10).
  - intros n data. simpl.
    destruct (Z.leb_spec 10 n) as [Hn|Hn]; [|discriminate].
    intros E. inversion E; subst. rewrite length_firstn. lia.
  - lia.
  - vm_compute; reflexivity.
Defined.

(* ------------------------------------------------------------------ *)
(** ** Both sources together *)

Lemma aggregate_sort_error (st : State) (fx : Fetchers) (tm : Timing)
  (req : AggregationRequest) (e : exn) :
  Sort.sort_desc (returned_items (schedule st fx req)) = Raise e ->
  aggregate_content st fx tm req =
    (Http500 "can't compare offset-naive and offset-aware datetimes", []).
Proof.
  intros E. unfold aggregate_content, aggregate_try.
  rewrite collect_returned. simpl. rewrite E.
  rewrite (sort_desc_raises _ _ E). reflexivity.
Qed.

Lemma Forall2_In_left {A B} (P : A -> B -> Prop) (l : list A) (l' : list B)
  (x : A) :
  Forall2 P l l' -> In x l -> exists y, In y l' /\ P x y.
Proof.
  induction 1 as [|a b l l' Hab F IH]; intros Hx; [destruct Hx|].
  destruct Hx as [<-|Hx].
  - exists b. split; [left; reflexivity | exact Hab].
  - destruct (IH Hx) as (y & Hy & Py). exists y. split; [right; exact Hy | exact Py].
Qed.

(** X13. With the fetchers of the module, a request for both sources to
    which the web fetcher returns an item and the Twitter search a tweet
    with an aware [created_at] answers 500: the items of the two sources
    cannot be sorted together. *)
Theorem web_items_and_dated_tweets_answer_500 (st : State) (get : HttpGet)
  (web_now twitter_now : Clock) (tm : Timing) (req : AggregationRequest)
  (c : TwitterClient) (web_items : list ContentItem) (it : ContentItem)
  (data : list Tweet) (tw : Tweet) (t : Z) :
  In "web" (sources req) ->
  In "twitter" (sources req) ->
  twitter_client st = Some c ->
  aggregate_web_content get web_now (query req) (max_results req)
    = Ok web_items ->
  In it web_items ->
  search_recent_tweets c (query req) (Z.min (max_results req) 100)
    = Ok (Some data) ->
  In tw data ->
  created_at tw = Some (Aware t) ->
  aggregate_content st (real_fetchers st get web_now twitter_now) tm req =
    (Http500 "can't compare offset-naive and offset-aware datetimes", []).
Proof.
  intros Hw Ht Hc Hweb Hit Hs Htw Hcr.
  apply mem_In in Hw. apply mem_In in Ht.
  set (fx := real_fetchers st get web_now twitter_now).
  assert (R : returned_items (schedule st fx req)
              = (web_items ++ twitter_items twitter_now 0 data)%list).
  { unfold schedule. rewrite Hw, Ht, Hc. simpl.
    rewrite Hc. simpl. unfold twitter_try. rewrite Hs. simpl.
    unfold aggregate_web_content in Hweb. inversion Hweb; subst.
    rewrite app_nil_r. reflexivity. }
  destruct (Sort.sort_desc (returned_items (schedule st fx req)))
    as [all_items|e] eqn:E; [|apply (aggregate_sort_error _ _ _ _ _ E)].
  exfalso.
  pose proof (sort_desc_comparable _ _ E) as C. rewrite R in C.
  destruct (Forall2_In_left _ _ _ _ (twitter_items_of_tweets twitter_now 0 data) Htw)
    as (y & Hy & _ & _ & _ & Hts & _).
  specialize (Hts _ Hcr).
  assert (Hn : is_aware (timestamp it) = false).
  { unfold aggregate_web_content in Hweb. inversion Hweb; subst.
    destruct (web_try_stamped get web_now (query req) (max_results req)) as [_ T].
    apply (in_map timestamp) in Hit. rewrite T in Hit.
    apply in_map_iff in Hit. destruct Hit as (k & <- & _). reflexivity. }
  specialize (C it y (in_or_app _ _ _ (or_introl Hit))
                     (in_or_app _ _ _ (or_intror Hy))).
  rewrite Hn, Hts in C. discriminate.
Qed.

Lemma web_items_and_dated_tweets_answer_500_witness :
  let st := Example.state Example.dated_tweets Example.llm in
  aggregate_content st
    (real_fetchers st (Example.get_ok Example.payload) Example.clock Example.clock)
    Example.timing (Example.request ["web"; "twitter"] false)
  = (Http500 "can't compare offset-naive and offset-aware datetimes", []).
Proof.
  intros st.
  eapply (web_items_and_dated_tweets_answer_500 st
            (Example.get_ok Example.payload) Example.clock Example.clock
            Example.timing (Example.request ["web"; "twitter"] false)
            (Example.twitter Example.dated_tweets) _ _
            Example.dated_tweets
            (mkTweet 1 "older tweet" (Some 7) (Some (Aware 50)) None) 50).
  - left; reflexivity.
  - right; left; reflexivity.
  - reflexivity.
  - vm_compute; reflexivity.
  - left; reflexivity.
  - reflexivity.
  - left; reflexivity.
  - reflexivity.
Defined.

(* ------------------------------------------------------------------ *)
(** ** More on the summary *)

(** X14. The summarizer reads the first ten items only: items after the
    tenth change neither the prompt nor the summary. *)
Theorem summary_reads_first_ten (client : option LLMClient)
  (its more : list ContentItem) (q : string) :
  (10 <= List.length its)%nat ->
  generate_summary client (its ++ more) q = generate_summary client its q.
Proof.
  intros L. destruct client as [llm|]; [|reflexivity].
  destruct its as [|x its]; [simpl in L; lia|].
  assert (S : slice_to 10 ((x :: its) ++ more) = slice_to 10 (x :: its)).
  { unfold slice_to. simpl Z.leb. cbv iota.
    change (Z.to_nat 10) with 10%nat.
    rewrite firstn_app.
    replace (10 - List.length (x :: its))%nat with 0%nat by lia.
    simpl firstn at 2. apply app_nil_r. }
  change (generate_summary (Some llm) ((x :: its) ++ more) q)
    with (let prompt := build_prompt (slice_to 10 ((x :: its) ++ more)) q in
          match ainvoke llm prompt with
          | Ok text => (Some text, [LLMInvoke prompt])
          | Raise _ => (None, [LLMInvoke prompt])
          end).
  rewrite S. reflexivity.
Qed.

Lemma summary_reads_first_ten_witness :
  generate_summary (Some Example.llm)
    (Fixture.ten_items ++ [Fixture.item 0]) "q"
  = generate_summary (Some Example.llm) Fixture.ten_items "q".
Proof.
  apply (summary_reads_first_ten (Some Example.llm) Fixture.ten_items
           [Fixture.item 0] "q").
  simpl. lia.
Defined.

(** X15. A returned result has the summary [text] exactly when the
    request asks for a summary, there are items, a language-model client
    is configured and its call on the prompt of the first ten items
    returns [text]; the language model is called at most once. *)
Theorem summary_is_the_model_answer (st : State) (fx : Fetchers)
  (tm : Timing) (req : AggregationRequest) (r : AggregationResult)
  (calls : list event) (text : string) :
  aggregate_content st fx tm req = (Http200 r, calls) ->
  (summary r = Some text <->
   summarize req = true /\ items r <> [] /\
   exists llm,
     openai_client st = Some llm /\
     ainvoke llm (build_prompt (slice_to 10 (items r)) (query req)) = Ok text) /\
  (List.length calls <= 1)%nat.
Proof.
  intros H. apply aggregate_ok_inv in H.
  destruct H as (all_items & _ & -> & ->). simpl.
  unfold summary_step.
  destruct (summarize req); simpl.
  - destruct all_items as [|x l]; simpl.
    + split; [|lia].
      split; [discriminate | intros (_ & N & _); contradiction].
    + destruct (openai_client st) as [llm|]; simpl.
      * destruct (ainvoke llm _) as [text'|e] eqn:E; simpl; (split; [|lia]).
        -- split.
           ++ intros T. inversion T; subst.
              split; [reflexivity|]. split; [discriminate|].
              exists llm. split; [reflexivity | exact E].
           ++ intros (_ & _ & llm' & L & A). inversion L; subst.
              rewrite E in A. inversion A; reflexivity.
        -- split; [discriminate|].
           intros (_ & _ & llm' & L & A). inversion L; subst.
           rewrite E in A. discriminate.
      * split; [|lia]. split; [discriminate|].
        intros (_ & _ & llm' & L & _). discriminate.
  - split; [|lia]. split; [discriminate | intros (F & _); discriminate].
Qed.

Lemma summary_is_the_model_answer_witness :
  let st := Example.state Example.dated_tweets Example.llm in
  let fx := Example.fetchers_web_raises st in
  let req := Example.request ["twitter"] true in
  exists r calls,
    aggregate_content st fx Example.timing req = (Http200 r, calls) /\
    summary r = Some "A summary." /\
    (List.length calls <= 1)%nat.
Proof.
  intros st fx req. eexists. eexists.
  split; [vm_compute; reflexivity|].
  split; [reflexivity|].
  eapply (summary_is_the_model_answer st fx Example.timing req _ _ "A summary.").
  vm_compute; reflexivity.
Defined.

(* ------------------------------------------------------------------ *)
(** ** More on the request schema *)

Lemma as_str_list_of_text (field : string) (l : list string) :
  Schema.as_str_list field (map JStr l) = Ok l.
Proof.
  induction l as [|x l IH]; simpl; [reflexivity|].
  rewrite IH. reflexivity.
Qed.

(** X16. A body that gives all four fields is accepted as the request
    with exactly these fields: no given field is replaced by its
    default. *)
Theorem request_round_trip (req : AggregationRequest) :
  Schema.validate_request (request_body req) = Ok req.
Proof.
  destruct req as [q s m z]. unfold request_body, Schema.validate_request.
  simpl. rewrite as_str_list_of_text. reflexivity.
Qed.

(** X17. A body with a text [query] and without the other three fields
    is accepted with the sources web and twitter, [max_results] 10 and
    [summarize] true; keys that the schema does not know are ignored. *)
Theorem absent_fields_take_defaults (d : list (string * json)) (q : string) :
  assoc "query" d = Some (JStr q) ->
  assoc "sources" d = None ->
  assoc "max_results" d = None ->
  assoc "summarize" d = None ->
  Schema.validate_request (JDict d)
    = Ok (mkAggregationRequest q ["web"; "twitter"] 10 true).
Proof.
  intros Hq Hs Hm Hz. unfold Schema.validate_request.
  rewrite Hq, Hs, Hm, Hz. reflexivity.
Qed.

Lemma absent_fields_take_defaults_witness :
  Schema.validate_request
    (JDict [("page", JNum 2); ("query", JStr "test")])
  = Ok (mkAggregationRequest "test" ["web"; "twitter"] 10 true).
Proof.
  apply (absent_fields_take_defaults
           [("page", JNum 2); ("query", JStr "test")] "test");
    reflexivity.
Defined.

(* ------------------------------------------------------------------ *)
(** ** Start-up and the module state *)

(** X18. When the Twitter client cannot be built, start-up ends there:
    the state is unchanged, and the language-model client is not built
    even with its key set. *)
Theorem twitter_failure_ends_startup (env : Env) (st : State)
  (token : string) (e : exn) :
  env_value (TWITTER_BEARER_TOKEN env) = Some token ->
  new_twitter_client env token = Raise e ->
  initialize_services env st = st.
Proof.
  intros T N. unfold initialize_services, init_twitter.
  rewrite T, N. reflexivity.
Qed.

Lemma twitter_failure_ends_startup_witness :
  OPENAI_API_KEY Fixture.env_twitter_broken = Some "key" /\
  new_openai_client Fixture.env_twitter_broken "key" = Ok Example.llm /\
  initialize_services Fixture.env_twitter_broken initial_state = initial_state.
Proof.
  split; [reflexivity|]. split; [reflexivity|].
  apply (twitter_failure_ends_startup Fixture.env_twitter_broken initial_state
           "token" (ProviderError "invalid bearer token")); reflexivity.
Defined.

(** X19. When the language-model client cannot be built, the Twitter
    client built before it stays, and the language-model client stays
    what it was. *)
Theorem openai_failure_keeps_twitter (env : Env) (st : State)
  (token key : string) (c : TwitterClient) (e : exn) :
  env_value (TWITTER_BEARER_TOKEN env) = Some token ->
  new_twitter_client env token = Ok c ->
  env_value (OPENAI_API_KEY env) = Some key ->
  new_openai_client env key = Raise e ->
  initialize_services env st
    = mkState (Some c) (openai_client st) (aggregation_tasks st).
Proof.
  intros T N K O. unfold initialize_services, init_twitter, init_openai.
  rewrite T, N. simpl. rewrite K, O. reflexivity.
Qed.

Lemma openai_failure_keeps_twitter_witness :
  let st := initialize_services Fixture.env_openai_broken initial_state in
  is_some (twitter_client st) = true /\
  is_some (openai_client st) = false /\
  st = mkState (Some (Example.twitter Example.dated_tweets)) None [].
Proof.
  intros st. split; [reflexivity|]. split; [reflexivity|].
  apply (openai_failure_keeps_twitter Fixture.env_openai_broken initial_state
           "token" "key" (Example.twitter Example.dated_tweets)
           (ProviderError "invalid api key")); reflexivity.
Defined.

(** X20. A credential that is unset or empty configures nothing:
    start-up without both credentials leaves the state as it is. *)
Theorem startup_without_credentials (env : Env) (st : State) :
  (TWITTER_BEARER_TOKEN env = None \/ TWITTER_BEARER_TOKEN env = Some "") ->
  (OPENAI_API_KEY env = None \/ OPENAI_API_KEY env = Some "") ->
  initialize_services env st = st.
Proof.
  intros T K. unfold initialize_services, init_twitter, init_openai.
  destruct T as [-> | ->], K as [-> | ->]; reflexivity.
Qed.

Lemma startup_without_credentials_witness :
  initialize_services
    (mkEnv (Some "") None (fun _ => Ok (Example.twitter Example.dated_tweets))
           (fun _ => Ok Example.llm))
    initial_state
  = initial_state.
Proof.
  apply startup_without_credentials; [right | left]; reflexivity.
Defined.

Lemma request_keeps_state (st : State) (o : operation) :
  is_request o = true -> fst (step st o) = st.
Proof.
  destruct o; simpl; intros H; try reflexivity; [discriminate|].
  destruct (post_aggregate st fx tm body); reflexivity.
Qed.

(** X21. The handlers read the module state and never write it: a run of
    requests of any kind and number leaves the two clients and the task
    list as they were. *)
Theorem requests_keep_the_state (st : State) (ops : list operation) :
  forallb is_request ops = true -> run st ops = st.
Proof.
  unfold run. induction ops as [|o ops IH]; simpl; intros H; [reflexivity|].
  apply andb_true_iff in H. destruct H as [Ho Hops].
  rewrite (request_keeps_state st o Ho). apply IH. exact Hops.
Qed.

Lemma requests_keep_the_state_witness :
  let st := Example.state Example.dated_tweets Example.llm in
  run st [GetHealth 1;
          PostAggregate (Example.fetchers st) Example.timing
                        (JDict [("query", JStr "rust")]);
          GetRoot None;
          GetStatus 2]
  = st.
Proof.
  intros st. apply requests_keep_the_state. reflexivity.
Defined.

(** X22. [sources_used] of a returned result is a sublist of web,
    twitter in this order, whatever the order and the repetitions of
    [sources]: it holds web when the request names it, and twitter when
    the request names it and the Twitter client is configured. Other
    tags are ignored. *)
Theorem sources_used_shape (st : State) (fx : Fetchers) (tm : Timing)
  (req : AggregationRequest) (r : AggregationResult) (calls : list event) :
  aggregate_content st fx tm req = (Http200 r, calls) ->
  (sources_used r = [] \/ sources_used r = ["web"] \/
   sources_used r = ["twitter"] \/ sources_used r = ["web"; "twitter"]) /\
  (In "web" (sources_used r) <-> In "web" (sources req)) /\
  (In "twitter" (sources_used r) <->
   In "twitter" (sources req) /\ twitter_client st <> None).
Proof.
  intros H. apply aggregate_ok_inv in H.
  destruct H as (all_items & _ & -> & _). simpl.
  unfold scheduled_tags.
  rewrite <- (mem_In "web" (sources req)), <- (mem_In "twitter" (sources req)).
  destruct (mem "web" (sources req)), (mem "twitter" (sources req)),
    (twitter_client st) as [c|]; simpl;
    (split; [tauto|]); split; split;
    try tauto;
    try (intros [E|[E|[]]]; discriminate);
    try (intros [E|[]]; discriminate);
    try (intros []; fail);
    try (intros _; repeat split; discriminate);
    try (intros [E _]; discriminate);
    try (intros [_ E]; congruence);
    try discriminate.
Qed.

Lemma sources_used_shape_witness :
  let st := Example.state Example.dated_tweets Example.llm in
  let fx := Example.fetchers_web_raises st in
  let req := Example.request ["twitter"; "reddit"; "web"; "web"] false in
  exists r calls,
    aggregate_content st fx Example.timing req = (Http200 r, calls) /\
    sources_used r = ["web"; "twitter"].
Proof.
  intros st fx req. eexists. eexists.
  split; [vm_compute; reflexivity|].
  destruct (sources_used_shape st fx Example.timing req _ _ eq_refl)
    as (_ & _ & _).
  reflexivity.
Defined.

(** X23. GET /health and GET /status agree on the two clients: /health
    names a client available exactly when /status reports it true, that
    is when the client is configured; /health always reports the status
    healthy and the web aggregation available. *)
Theorem health_and_status_agree (st : State) (now now' : Z) :
  health_status (health_check st now) = "healthy" /\
  assoc "web_aggregation" (health_services (health_check st now))
    = Some "available" /\
  (assoc "twitter" (health_services (health_check st now)) = Some "available"
   <-> twitter_on (get_status st now') = true) /\
  (assoc "openai" (health_services (health_check st now)) = Some "available"
   <-> openai_on (get_status st now') = true) /\
  (twitter_on (get_status st now') = true <-> twitter_client st <> None) /\
  (openai_on (get_status st now') = true <-> openai_client st <> None).
Proof.
  destruct st as [[tc|] [oc|] tasks]; simpl;
    repeat split; intros; try reflexivity; try discriminate;
    try congruence.
Qed.

Lemma returned_items_all_raised
  (tasks : list (string * res (list ContentItem))) :
  (forall t, In t tasks -> exists e, snd t = Raise e) ->
  returned_items tasks = [].
Proof.
  induction tasks as [|t tasks IH]; simpl; intros H; [reflexivity|].
  destruct (H t (or_introl eq_refl)) as [e E]. rewrite E. simpl.
  apply IH. intros t' Ht'. apply H. right. exact Ht'.
Qed.

(** X26. When every scheduled fetcher raises, the request still answers
    200: the result has no items, [total_items] 0 and no summary, it
    lists the scheduled tags in [sources_used], and the language model
    is not called. *)
Theorem all_fetchers_fail (st : State) (fx : Fetchers) (tm : Timing)
  (req : AggregationRequest) :
  (forall t, In t (schedule st fx req) -> exists e, snd t = Raise e) ->
  aggregate_content st fx tm req =
    (Http200 (mkAggregationResult (query req) [] None 0
                (scheduled_tags st req) (end_time tm - start_time tm)),
     []).
Proof.
  intros H.
  assert (E : Sort.sort_desc (returned_items (schedule st fx req)) = Ok []).
  { rewrite (returned_items_all_raised _ H). reflexivity. }
  rewrite (aggregate_ok_intro _ _ tm _ _ E).
  unfold summary_step. simpl. rewrite andb_false_r. reflexivity.
Qed.

Lemma all_fetchers_fail_witness :
  let st := Example.state Example.dated_tweets Example.llm in
  let fx := mkFetchers (fun _ _ => Raise (NetworkError "down"))
                       (fun _ _ => Raise (ProviderError "down")) in
  aggregate_content st fx Example.timing
    (Example.request ["web"; "twitter"] true)
  = (Http200 (mkAggregationResult "test query" [] None 0 ["web"; "twitter"]
                2500000),
     []).
Proof.
  intros st fx.
  apply (all_fetchers_fail st fx Example.timing
           (Example.request ["web"; "twitter"] true)).
  intros t [<-|[<-|[]]]; eexists; reflexivity.
Defined.
